(** * Splito backend: the authentication flow of [src/server.js] and
      [src/controllers/auth.controller.js]

    A shallow embedding of the two implementations of register / login /
    profile, of the health, 404 and error handlers, and of the parts of
    Express, Mongoose, bcryptjs and jsonwebtoken that these handlers call.

    Conventions.
    - A JavaScript string is a [string] of code units below 256 (the
      Latin-1 range); [toLowerCase] and [trim] are the ECMAScript
      operations restricted to that range.
    - A value read from a request body is a [Json] value, or absent
      ([None], JavaScript's [undefined]).
    - An ObjectId is twelve bytes; in a JSON body and in the payload of
      a token it is its 24 lowercase hexadecimal digits, and a string is
      cast to an ObjectId, as Mongoose casts the filter of [findById],
      when it is 24 hexadecimal digits of either case.
    - An [async] handler is a function from the world (the MongoDB
      collection and the connection state) to a response and a new world;
      a rejected promise or a thrown exception is the [Throw] outcome of
      the handler's body, turned into a response by its [catch] block.
    - bcryptjs, jsonwebtoken, the JavaScript runtime's number and date
      formatting and the text of MongoDB's duplicate-key report are
      parameters (type classes); what a theorem needs of them is a named
      law, taken as a hypothesis.  The messages of the exceptions that
      reach a response are those the libraries build. *)

From Stdlib Require Import Bool Arith NArith ZArith Lia List Ascii String.
From Stdlib.Strings Require Import Byte.
From Stdlib Require Import Uint63 PrimFloat DecimalString DecimalZ.
Import ListNotations.
Local Open Scope string_scope.
Local Open Scope nat_scope.

Local Set Warnings "-register-all".

(** ** JavaScript strings *)

Module JsString.

Definition code (c : ascii) : nat := nat_of_ascii c.

(** ECMAScript WhiteSpace and LineTerminator code points below 256:
    TAB, LF, VT, FF, CR, SP and NBSP. *)
Definition is_space (c : ascii) : bool :=
  let n := code c in
  ((9 <=? n) && (n <=? 13)) || (n =? 32) || (n =? 160).

(** Upper-case letters below 256: A-Z, and U+00C0..U+00DE without the
    multiplication sign U+00D7.  Each maps to the code point 32 above. *)
Definition is_upper (c : ascii) : bool :=
  let n := code c in
  ((65 <=? n) && (n <=? 90))
  || ((192 <=? n) && (n <=? 222) && negb (n =? 215)).

Definition lower_char (c : ascii) : ascii :=
  if is_upper c then ascii_of_nat (code c + 32) else c.

(** [String.prototype.toLowerCase] *)
Fixpoint toLowerCase (s : string) : string :=
  match s with
  | EmptyString => EmptyString
  | String c r => String (lower_char c) (toLowerCase r)
  end.

Fixpoint trimStart (s : string) : string :=
  match s with
  | EmptyString => EmptyString
  | String c r => if is_space c then trimStart r else s
  end.

Fixpoint trimEnd (s : string) : string :=
  match s with
  | EmptyString => EmptyString
  | String c r =>
      match trimEnd r with
      | EmptyString => if is_space c then EmptyString else String c EmptyString
      | r' => String c r'
      end
  end.

(** [String.prototype.trim] *)
Definition trim (s : string) : string := trimEnd (trimStart s).

Fixpoint drop (n : nat) (s : string) : string :=
  match n, s with
  | O, _ => s
  | S n', EmptyString => EmptyString
  | S n', String _ r => drop n' r
  end.

(** [s.replace(pat, '')] for a string pattern: the first occurrence of
    [pat] is removed, the rest of [s] is kept. *)
Fixpoint remove_first (pat s : string) : string :=
  if prefix pat s then drop (String.length pat) s
  else match s with
       | EmptyString => EmptyString
       | String c r => String c (remove_first pat r)
       end.

(** [s.includes(pat)] *)
Fixpoint includes (pat s : string) : bool :=
  prefix pat s ||
  match s with
  | EmptyString => false
  | String _ r => includes pat r
  end.

Definition is_empty (s : string) : bool :=
  match s with EmptyString => true | _ => false end.

End JsString.

(** ** JSON values and the JavaScript operations applied to them *)

(** What the JavaScript runtime computes and this development does not
    define: [Number(s)] for a string, [String(x)] for a number,
    [Date.prototype.toISOString] for a time in milliseconds, and the text
    of the MongoDB server's E11000 report for a refused insert, given the
    hexadecimal [_id] and the email of the document. *)
Class JsRuntime := {
  string_to_number : string -> float;
  number_to_string : float -> string;
  date_to_iso : Z -> string;
  duplicate_key_message : string -> string -> string
}.

Inductive Json : Type :=
| JNull
| JBool (b : bool)
| JNum (x : float)
| JStr (s : string)
| JArr (items : list Json)
| JObj (fields : list (string * Json)).

(** A JavaScript value read from a parsed body: a JSON value, or
    [undefined]. *)
Definition JsVal : Type := option Json.

Definition undefined : JsVal := None.

Fixpoint assoc {A : Type} (k : string) (o : list (string * A)) : option A :=
  match o with
  | [] => None
  | (k', v) :: r => if String.eqb k k' then Some v else assoc k r
  end.

(** Property access [o.k] on an object literal: [undefined] when absent. *)
Definition prop (o : list (string * Json)) (k : string) : JsVal := assoc k o.

Module Js.

(** ToBoolean. *)
Definition truthy (v : JsVal) : bool :=
  match v with
  | None => false
  | Some JNull => false
  | Some (JBool b) => b
  | Some (JNum x) => negb (PrimFloat.eqb x 0%float || PrimFloat.is_nan x)
  | Some (JStr s) => negb (JsString.is_empty s)
  | Some (JArr _) => true
  | Some (JObj _) => true
  end.

(** [typeof v] *)
Definition typeof (v : JsVal) : string :=
  match v with
  | None => "undefined"
  | Some (JBool _) => "boolean"
  | Some (JNum _) => "number"
  | Some (JStr _) => "string"
  | Some JNull | Some (JArr _) | Some (JObj _) => "object"
  end.

Section Coercions.
Context {R : JsRuntime}.

(** Whether the object has an own property [k]. *)
Definition has_own (fields : list (string * Json)) (k : string) : bool :=
  match assoc k fields with Some _ => true | None => false end.

(** ToString, as [Array.prototype.join] and ToPrimitive need it; [None]
    where the conversion throws a TypeError.  An object parsed from JSON
    is converted by [Object.prototype.toString] unless it has an own
    property [toString]: that one is not callable, and neither
    [Object.prototype.valueOf] nor an own [valueOf] yields a primitive. *)
Fixpoint to_string (v : Json) : option string :=
  match v with
  | JNull => Some "null"
  | JBool true => Some "true"
  | JBool false => Some "false"
  | JNum x => Some (number_to_string x)
  | JStr s => Some s
  | JArr items =>
      (fix join (l : list Json) : option string :=
         match l with
         | [] => Some ""
         | x :: r =>
             match match x with JNull => Some "" | _ => to_string x end with
             | None => None
             | Some sx =>
                 match r with
                 | [] => Some sx
                 | _ => match join r with
                        | Some sr => Some (sx ++ "," ++ sr)
                        | None => None
                        end
                 end
             end
         end) items
  | JObj fields =>
      if has_own fields "toString" then None else Some "[object Object]"
  end.

(** ToNumber; [None] where it throws a TypeError. *)
Definition to_number (v : JsVal) : option float :=
  match v with
  | None => Some PrimFloat.nan
  | Some JNull => Some 0%float
  | Some (JBool true) => Some 1%float
  | Some (JBool false) => Some 0%float
  | Some (JNum x) => Some x
  | Some (JStr s) => Some (string_to_number s)
  | Some (JArr items) => option_map string_to_number (to_string (JArr items))
  | Some (JObj fields) =>
      if has_own fields "toString" then None else Some PrimFloat.nan
  end.

(** [v.length < n] for a value [v] that is not [null] or [undefined].
    The length of a string or an array is its number of elements; of an
    object, its own property [length] (compared after ToNumber, which can
    throw); a number or a boolean has none, and [undefined < n] is
    false. *)
Definition length_lt (v : Json) (n : nat) : option bool :=
  match v with
  | JStr s => Some (String.length s <? n)
  | JArr items => Some (List.length items <? n)
  | JObj fields =>
      option_map
        (fun x => PrimFloat.ltb x (PrimFloat.of_uint63 (Uint63.of_Z (Z.of_nat n))))
        (to_number (prop fields "length"))
  | JNull | JBool _ | JNum _ => Some false
  end.

End Coercions.

End Js.

(** ** Exceptions, the world and the monad of handler bodies *)

Inductive ExnName : Type :=
| TypeError            (* calling a method that the value does not have *)
| MongooseError        (* operation buffering timed out: store unreachable *)
| ValidationError      (* Mongoose document validation *)
| CastError            (* Mongoose: a filter value that is no ObjectId *)
| MongoServerError     (* E11000 duplicate key *)
| Error                (* bcryptjs and jsonwebtoken argument errors *)
| JsonWebTokenError
| TokenExpiredError.

Record Exn : Type := { name : ExnName; message : string }.

Inductive Result (A : Type) : Type :=
| Ok (a : A)
| Throw (e : Exn).
Arguments Ok {A} a.
Arguments Throw {A} e.

(** An ObjectId: twelve bytes. *)
Inductive ObjectId : Type :=
| OID (b0 b1 b2 b3 b4 b5 b6 b7 b8 b9 b10 b11 : byte).

Definition hex_digit (n : N) : ascii :=
  if (n <? 10)%N then ascii_of_N (48 + n) else ascii_of_N (87 + n).

Definition digit_value (c : ascii) : option N :=
  let n := N_of_ascii c in
  if ((48 <=? n) && (n <=? 57))%N then Some (n - 48)%N
  else if ((97 <=? n) && (n <=? 102))%N then Some (n - 87)%N
  else if ((65 <=? n) && (n <=? 70))%N then Some (n - 55)%N
  else None.

Definition hex_of_byte (b : byte) : string :=
  let n := Byte.to_N b in
  String (hex_digit (n / 16)) (String (hex_digit (n mod 16)) EmptyString).

Definition byte_of_hex (h l : ascii) : option byte :=
  match digit_value h, digit_value l with
  | Some a, Some b => Byte.of_N (a * 16 + b)
  | _, _ => None
  end.

Fixpoint hex_of_bytes (l : list byte) : string :=
  match l with
  | [] => EmptyString
  | b :: r => hex_of_byte b ++ hex_of_bytes r
  end.

Fixpoint bytes_of_hex (s : string) : option (list byte) :=
  match s with
  | EmptyString => Some []
  | String _ EmptyString => None
  | String h (String l r) =>
      match byte_of_hex h l, bytes_of_hex r with
      | Some b, Some bs => Some (b :: bs)
      | _, _ => None
      end
  end.

Definition oid_bytes (id : ObjectId) : list byte :=
  let 'OID b0 b1 b2 b3 b4 b5 b6 b7 b8 b9 b10 b11 := id in
  [b0; b1; b2; b3; b4; b5; b6; b7; b8; b9; b10; b11].

(** [id.toHexString()], which is also how an ObjectId is serialized in a
    JSON body and in the payload of a token: 24 lowercase hexadecimal
    digits. *)
Definition toHexString (id : ObjectId) : string :=
  hex_of_bytes (oid_bytes id).

(** [new ObjectId(s)] for a string: the id that 24 hexadecimal digits, of
    either case, spell; no id for any other string. *)
Definition cast_ObjectId (s : string) : option ObjectId :=
  match bytes_of_hex s with
  | Some [b0; b1; b2; b3; b4; b5; b6; b7; b8; b9; b10; b11] =>
      Some (OID b0 b1 b2 b3 b4 b5 b6 b7 b8 b9 b10 b11)
  | _ => None
  end.

Definition ObjectId_eqb (a b : ObjectId) : bool :=
  String.eqb (toHexString a) (toHexString b).

(** A document of the [users] collection (schema of server.js, lines
    40-56). *)
Record UserDoc : Type := {
  user_id : ObjectId;
  user_email : string;
  user_password : string;
  user_createdAt : Z
}.

(** The state outside a handler: the collection in insertion order, and
    whether [mongoose.connection.readyState === 1]. *)
Record World : Type := {
  users : list UserDoc;
  connected : bool
}.

(** What a request draws from its environment: the clock ([Date.now()],
    in milliseconds, read once per request), the ObjectId generated for a
    new document and the salt bcrypt generates. *)
Record Env : Type := {
  Date_now : Z;
  new_ObjectId : ObjectId;
  genSalt : string
}.

Definition M (A : Type) : Type := World -> Result A * World.

Definition ret {A} (a : A) : M A := fun w => (Ok a, w).
Definition throw {A} (e : Exn) : M A := fun w => (Throw e, w).
Definition bind {A B} (m : M A) (k : A -> M B) : M B :=
  fun w => match m w with
           | (Ok a, w') => k a w'
           | (Throw e, w') => (Throw e, w')
           end.
Definition lift {A} (r : Result A) : M A := fun w => (r, w).

Declare Scope handler_scope.
Delimit Scope handler_scope with handler.
Notation "x <- m ;; k" := (bind m (fun x => k))
  (at level 61, m at next level, right associativity) : handler_scope.
Notation "m ;;; k" := (bind m (fun _ => k))
  (at level 61, right associativity) : handler_scope.

Record Response : Type := { status : nat; body : Json }.

(** [res.status(n).json(o)]; [res.json(o)] is [json 200 o]. *)
Definition json (n : nat) (o : list (string * Json)) : Response :=
  {| status := n; body := JObj o |}.

(** [async (req, res) => { try { body } catch (error) { on_error } }] *)
Definition try_catch (body : M Response) (on_error : Exn -> Response)
  : World -> Response * World :=
  fun w => match body w with
           | (Ok r, w') => (r, w')
           | (Throw e, w') => (on_error e, w')
           end.

Record Request : Type := {
  authorization : option string;        (* req.headers.authorization *)
  req_body : list (string * Json)       (* req.body, after express.json() *)
}.

(** What ToPrimitive throws for an object without a callable [valueOf] or
    [toString]. *)
Definition not_primitive : Exn :=
  {| name := TypeError;
     message := "Cannot convert object to primitive value" |}.

(** [email.toLowerCase().trim()]: a TypeError unless [email] is a string. *)
Definition toLowerCase_trim (v : JsVal) : Result string :=
  match v with
  | Some (JStr s) => Ok (JsString.trim (JsString.toLowerCase s))
  | _ => Throw {| name := TypeError;
                  message := "email.toLowerCase is not a function" |}
  end.

(** ** bcryptjs *)

Class Bcrypt := {
  (** the hash of a password under a cost and a salt *)
  hashpw : string -> nat -> string -> string;
  (** whether a password matches a stored hash *)
  checkpw : string -> string -> bool
}.

(** A password matches every hash made of it. *)
Definition bcrypt_correct (B : Bcrypt) : Prop :=
  forall p rounds s, checkpw p (hashpw p rounds s) = true.

Module bcrypt.
Section Wrappers.
Context {B : Bcrypt}.

(** [Error("Illegal arguments: " + (typeof s) + ', ' + (typeof second))],
    where [second] is the salt or number of rounds of [hash] and the hash
    of [compare]. *)
Definition illegal_arguments (s : JsVal) (second : string) : Exn :=
  {| name := Error;
     message := "Illegal arguments: " ++ Js.typeof s ++ ", " ++ second |}.

(** [bcrypt.hash(s, rounds)]: rejects unless [s] is a string. *)
Definition hash (s : JsVal) (rounds : nat) (salt : string) : Result string :=
  match s with
  | Some (JStr p) => Ok (hashpw p rounds salt)
  | _ => Throw (illegal_arguments s "number")
  end.

(** [bcrypt.compare(s, hash)]: rejects unless [s] is a string. *)
Definition compare (s : JsVal) (h : string) : Result bool :=
  match s with
  | Some (JStr p) => Ok (checkpw p h)
  | _ => Throw (illegal_arguments s "string")
  end.

End Wrappers.
End bcrypt.

(** ** jsonwebtoken *)

(** The payload the handlers sign: [{ id, email, iat, exp }], the id as
    JSON serializes it. *)
Record Claims : Type := {
  claim_id : string;
  claim_email : string;
  iat : Z;
  exp : Z
}.

Class Jwt := {
  (** the compact serialization of the claims, signed (HS256) with a key *)
  jwt_encode : Claims -> string -> string;
  (** the claims of a well-formed token whose signature the key verifies *)
  jwt_decode : string -> string -> option Claims;
  (** the message of the JsonWebTokenError for a token that the key does
      not verify (['jwt malformed'], ['invalid signature'], ...) *)
  jwt_reject : string -> string -> string
}.

(** A base64url character or the dot that separates the three parts. *)
Definition compact_char (c : ascii) : bool :=
  let n := nat_of_ascii c in
  ((65 <=? n) && (n <=? 90)) || ((97 <=? n) && (n <=? 122))
  || ((48 <=? n) && (n <=? 57)) || (n =? 45) || (n =? 95) || (n =? 46).

Fixpoint compact (t : string) : bool :=
  match t with
  | EmptyString => true
  | String c r => compact_char c && compact r
  end.

(** Laws of the library. *)
Definition jwt_roundtrip (J : Jwt) : Prop :=
  forall c k, jwt_decode (jwt_encode c k) k = Some c.
(** No token signed with the key [k] verifies under the key [k']. *)
Definition jwt_keys_apart (J : Jwt) (k k' : string) : Prop :=
  forall c, jwt_decode (jwt_encode c k) k' = None.
Definition jwt_compact (J : Jwt) : Prop :=
  forall t k c, jwt_decode t k = Some c ->
                compact t = true /\ t <> EmptyString.

Module jwt.
Section Wrappers.
Context {J : Jwt}.

(** [ms('7d') / 1000] *)
Definition seconds_7d : Z := 7 * 24 * 60 * 60.

(** [jwt.sign({ id, email }, secret, { expiresIn: '7d' })] at clock [now]
    (milliseconds): [iat] is the clock in whole seconds, [exp] is [iat]
    plus the span. *)
Definition sign (id email secret : string) (expiresIn now : Z)
  : Result string :=
  if JsString.is_empty secret
  then Throw {| name := Error;
                message := "secretOrPrivateKey must have a value" |}
  else
    let t := (now / 1000)%Z in
    Ok (jwt_encode {| claim_id := id; claim_email := email;
                      iat := t; exp := (t + expiresIn)%Z |} secret).

(** What [jwt.verify] throws for a token that the key does not verify. *)
Definition rejected (token secret : string) : Exn :=
  {| name := JsonWebTokenError; message := jwt_reject token secret |}.

(** [jwt.verify(token, secret)] at clock [now]: the token is expired once
    the clock, in whole seconds, has reached [exp]. *)
Definition verify (token secret : string) (now : Z) : Result Claims :=
  match jwt_decode token secret with
  | None => Throw (rejected token secret)
  | Some c =>
      if (exp c <=? now / 1000)%Z
      then Throw {| name := TokenExpiredError; message := "jwt expired" |}
      else Ok c
  end.

End Wrappers.
End jwt.

(** ** src/server.js *)

Module Server.
Section Handlers.
Context {R : JsRuntime} {B : Bcrypt} {J : Jwt}.
Local Open Scope handler_scope.

(** *** User model (lines 40-58) *)

(** The setters of the [email] path: [lowercase: true], [trim: true].
    Mongoose runs them when a document is built and when a query filter
    is cast. *)
Definition email_setters (v : string) : string :=
  JsString.trim (JsString.toLowerCase v).

(** [required: true] on a String path: the empty string does not pass. *)
Definition required (v : string) : bool := negb (JsString.is_empty v).

(** What Mongoose rejects a buffered operation with once
    [bufferTimeoutMS] (10000 by default) has passed without a connection;
    [op] is the collection method: [findOne] for [findOne] and [findById],
    [insertOne] for [save]. *)
Definition buffering_timed_out (op : string) : Exn :=
  {| name := MongooseError;
     message := "Operation `users." ++ op
                ++ "()` buffering timed out after 10000ms" |}.

(** The ValidationError of a document: one clause for each path whose
    [required] validator fails, in the order of the schema. *)
Definition required_clause (path value : string) : list string :=
  if required value then []
  else [path ++ ": Path `" ++ path ++ "` is required."].

Definition validation_failed (user : UserDoc) : Exn :=
  {| name := ValidationError;
     message := "User validation failed: "
                ++ String.concat ", "
                     (required_clause "email" (user_email user)
                      ++ required_clause "password" (user_password user))%list
  |}.

Definition duplicate_key (user : UserDoc) : Exn :=
  {| name := MongoServerError;
     message := duplicate_key_message (toHexString (user_id user))
                                      (user_email user) |}.

(** [new User({ email, password })]: a fresh [_id], the setters applied to
    the email, [createdAt] defaulting to [Date.now]. *)
Definition new_User (env : Env) (email password : string) : UserDoc :=
  {| user_id := new_ObjectId env;
     user_email := email_setters email;
     user_password := password;
     user_createdAt := Date_now env |}.

Definition same_key (a b : UserDoc) : bool :=
  ObjectId_eqb (user_id a) (user_id b)
  || String.eqb (user_email a) (user_email b).

(** [user.save()]: validation, then the insert, which the store refuses
    when it is unreachable or when [_id] or the unique [email] is taken. *)
Definition save (user : UserDoc) : M UserDoc :=
  fun w =>
    if negb (required (user_email user) && required (user_password user))
    then (Throw (validation_failed user), w)
    else if negb (connected w)
    then (Throw (buffering_timed_out "insertOne"), w)
    else if existsb (same_key user) (users w)
    then (Throw (duplicate_key user), w)
    else (Ok user, {| users := users w ++ [user];
                      connected := connected w |}).

(** [User.findOne({ email })].  The filter is cast by the schema, which
    runs the setters; they leave an email that is already lowercased and
    trimmed as it is. *)
Definition User_findOne (email : string) : M (option UserDoc) :=
  fun w =>
    if connected w
    then (Ok (find (fun u => String.eqb (user_email u) (email_setters email))
                   (users w)), w)
    else (Throw (buffering_timed_out "findOne"), w).

Definition quoted (s : string) : string :=
  String (ascii_of_nat 34) (s ++ String (ascii_of_nat 34) EmptyString).

Definition cast_failed (value : string) : Exn :=
  {| name := CastError;
     message := "Cast to ObjectId failed for value " ++ quoted value
                ++ " (type string) at path " ++ quoted "_id"
                ++ " for model " ++ quoted "User" |}.

(** [User.findById(id).select('-password')] for a string [id].  The
    filter [{ _id: id }] is cast by the schema when the query is run: a
    string that is no ObjectId rejects the query with a CastError, before
    the collection is asked. *)
Definition User_findById (id : string) : M (option UserDoc) :=
  fun w =>
    match cast_ObjectId id with
    | None => (Throw (cast_failed id), w)
    | Some oid =>
        if connected w
        then (Ok (find (fun u => ObjectId_eqb (user_id u) oid) (users w)), w)
        else (Throw (buffering_timed_out "findOne"), w)
    end.

(** The document as [res.json] serializes it after [select('-password')]. *)
Definition toJSON_without_password (u : UserDoc) : Json :=
  JObj [("_id", JStr (toHexString (user_id u)));
        ("email", JStr (user_email u));
        ("createdAt", JStr (date_to_iso (user_createdAt u)));
        ("__v", JNum 0%float)].

(** *** JWT config (line 61) *)

Definition JWT_SECRET : string := "splito-jwt-secret-key-2024".

(** *** Routes *)

(** [{ id: user._id, email: user.email, createdAt: user.createdAt }] *)
Definition user_summary (user : UserDoc) : Json :=
  JObj [("id", JStr (toHexString (user_id user)));
        ("email", JStr (user_email user));
        ("createdAt", JStr (date_to_iso (user_createdAt user)))].

(** [password.length < 6], evaluated where [password] is truthy. *)
Definition password_too_short (password : JsVal) : Result bool :=
  match password with
  | Some v =>
      match Js.length_lt v 6 with
      | Some b => Ok b
      | None => Throw not_primitive
      end
  | None => Ok false
  end.

(** GET /api/health (lines 66-78) *)
Definition health (env : Env) (req : Request) : World -> Response * World :=
  fun w =>
    (json 200
       [("status", JStr "OK");
        ("message", JStr "Splito Backend is running");
        ("timestamp", JStr (date_to_iso (Date_now env)));
        ("database",
          JStr (if connected w then "connected" else "disconnected"));
        ("endpoints",
          JObj [("register", JStr "POST /api/auth/register");
                ("login", JStr "POST /api/auth/login");
                ("health", JStr "GET /api/health")])],
     w).

(** POST /api/auth/register (lines 81-163): the body of the [try]. *)
Definition register_body (env : Env) (req : Request) : M Response :=
  let email := prop (req_body req) "email" in
  let password := prop (req_body req) "password" in
  if negb (Js.truthy email) || negb (Js.truthy password)
  then ret (json 400 [("success", JBool false);
                      ("message", JStr "Email and password are required")])
  else
  too_short <- lift (password_too_short password) ;;
  if too_short : bool
  then ret (json 400
              [("success", JBool false);
               ("message", JStr "Password must be at least 6 characters")])
  else
    normalized <- lift (toLowerCase_trim email) ;;
    existingUser <- User_findOne normalized ;;
    match existingUser with
    | Some _ =>
        ret (json 400
               [("success", JBool false);
                ("message", JStr "User already exists with this email")])
    | None =>
        hashedPassword <- lift (bcrypt.hash password 10 (genSalt env)) ;;
        normalized' <- lift (toLowerCase_trim email) ;;
        let user := new_User env normalized' hashedPassword in
        save user ;;;
        token <- lift (jwt.sign (toHexString (user_id user))
                         (user_email user)
                         JWT_SECRET jwt.seconds_7d (Date_now env)) ;;
        ret (json 201
               [("success", JBool true);
                ("message", JStr "User registered successfully");
                ("data", JObj [("user", user_summary user);
                               ("token", JStr token)])])
    end.

(** The register handler: its body inside [try], and its [catch] block. *)
Definition register (env : Env) (req : Request) : World -> Response * World :=
  try_catch (register_body env req)
    (fun error =>
       json 500 [("success", JBool false);
                 ("message", JStr "Server error during registration");
                 ("error", JStr (message error))]).

(** POST /api/auth/login (lines 166-236): the body of the [try]. *)
Definition login_body (env : Env) (req : Request) : M Response :=
  let email := prop (req_body req) "email" in
  let password := prop (req_body req) "password" in
  if negb (Js.truthy email) || negb (Js.truthy password)
  then ret (json 400 [("success", JBool false);
                      ("message", JStr "Email and password are required")])
  else
    normalized <- lift (toLowerCase_trim email) ;;
    found <- User_findOne normalized ;;
    match found with
    | None =>
        ret (json 401 [("success", JBool false);
                       ("message", JStr "Invalid email or password")])
    | Some user =>
        isPasswordValid <-
          lift (bcrypt.compare password (user_password user)) ;;
        if negb isPasswordValid
        then ret (json 401 [("success", JBool false);
                            ("message", JStr "Invalid email or password")])
        else
          token <- lift (jwt.sign (toHexString (user_id user))
                           (user_email user)
                           JWT_SECRET jwt.seconds_7d (Date_now env)) ;;
          ret (json 200
                 [("success", JBool true);
                  ("message", JStr "Login successful");
                  ("data", JObj [("user", user_summary user);
                                 ("token", JStr token)])])
    end.

(** The login handler: its body inside [try], and its [catch] block. *)
Definition login (env : Env) (req : Request) : World -> Response * World :=
  try_catch (login_body env req)
    (fun error =>
       json 500 [("success", JBool false);
                 ("message", JStr "Server error during login");
                 ("error", JStr (message error))]).

(** [req.headers.authorization?.replace('Bearer ', '')] *)
Definition extract_token (header : option string) : option string :=
  option_map (JsString.remove_first "Bearer ") header.

(** GET /api/auth/profile (lines 239-274).  [!token] holds of
    [undefined] and of the empty string. *)
Definition profile_body (env : Env) (req : Request) : M Response :=
  let token := extract_token (authorization req) in
  match token with
  | Some t =>
      if JsString.is_empty t
      then ret (json 401 [("success", JBool false);
                          ("message", JStr "No token provided")])
      else
        decoded <- lift (jwt.verify t JWT_SECRET (Date_now env)) ;;
        found <- User_findById (claim_id decoded) ;;
        match found with
        | None => ret (json 404 [("success", JBool false);
                                 ("message", JStr "User not found")])
        | Some user =>
            ret (json 200 [("success", JBool true);
                           ("data", toJSON_without_password user)])
        end
  | None => ret (json 401 [("success", JBool false);
                           ("message", JStr "No token provided")])
  end.

(** The profile handler: its body inside [try], and its [catch] block. *)
Definition profile (env : Env) (req : Request) : World -> Response * World :=
  try_catch (profile_body env req)
    (fun error =>
       json 401 [("success", JBool false);
                 ("message", JStr "Invalid or expired token")]).

(** 404 handler (lines 279-284) *)
Definition notFound (req : Request) : World -> Response * World :=
  fun w => (json 404 [("success", JBool false);
                      ("message", JStr "Route not found")], w).

(** Global error handler (lines 287-294) *)
Definition errorHandler (err : Exn) (req : Request)
  : World -> Response * World :=
  fun w => (json 500 [("success", JBool false);
                      ("message", JStr "Internal server error");
                      ("error", JStr (message err))], w).

(** The routes of the application, and the handler each one runs. *)
Inductive Endpoint : Type :=
| Health
| Register
| Login
| Profile
| NotFound
| ErrorHandler (err : Exn).

Definition app (ep : Endpoint) (env : Env) (req : Request)
  : World -> Response * World :=
  match ep with
  | Health => health env req
  | Register => register env req
  | Login => login env req
  | Profile => profile env req
  | NotFound => notFound req
  | ErrorHandler err => errorHandler err req
  end.

End Handlers.
End Server.

(** ** src/controllers/auth.controller.js *)

(** [process.env], as far as the controller reads it. *)
Record ProcessEnv : Type := { env_JWT_SECRET : option string }.

(** The model [require('../models/User.model')] provides, by the calls the
    controller makes.  The module is not part of the sources; the
    controller is embedded over any implementation of it. *)
Class UserModel := {
  (** [User.findOne({ email: v })] *)
  User_findOne : JsVal -> M (option UserDoc);
  (** [new User({ email, password })] followed by [user.save()] *)
  User_create : Env -> string -> JsVal -> M UserDoc;
  (** [user.comparePassword(password)] *)
  comparePassword : UserDoc -> JsVal -> M bool;
  (** [User.findById(id).select('-password')] *)
  User_findById : string -> M (option UserDoc);
  (** the selected document as [res.json] serializes it *)
  User_toJSON : UserDoc -> Json
}.

Module Controller.
Section Handlers.
Context {R : JsRuntime} {J : Jwt} {U : UserModel}.
Variable process_env : ProcessEnv.
Local Open Scope handler_scope.

(** [process.env.JWT_SECRET || 'splito-secret-key-12345'] (line 4) *)
Definition JWT_SECRET : string :=
  match env_JWT_SECRET process_env with
  | Some s => if JsString.is_empty s then "splito-secret-key-12345" else s
  | None => "splito-secret-key-12345"
  end.

(** [generateToken] (lines 7-13) *)
Definition generateToken (userId email : string) (now : Z)
  : Result string :=
  jwt.sign userId email JWT_SECRET jwt.seconds_7d now.

Definition user_summary (user : UserDoc) : Json :=
  JObj [("id", JStr (toHexString (user_id user)));
        ("email", JStr (user_email user));
        ("createdAt", JStr (date_to_iso (user_createdAt user)))].

Definition password_too_short (password : JsVal) : Result bool :=
  match password with
  | Some v =>
      match Js.length_lt v 6 with
      | Some b => Ok b
      | None => Throw not_primitive
      end
  | None => Ok false
  end.

(** [exports.register] (lines 16-75): the body of the [try]. *)
Definition register_body (env : Env) (req : Request) : M Response :=
  let email := prop (req_body req) "email" in
  let password := prop (req_body req) "password" in
  if negb (Js.truthy email) || negb (Js.truthy password)
  then ret (json 400 [("success", JBool false);
                      ("message", JStr "Please provide email and password")])
  else
  too_short <- lift (password_too_short password) ;;
  if too_short : bool
  then ret (json 400
              [("success", JBool false);
               ("message", JStr "Password must be at least 6 characters")])
  else
    existingUser <- User_findOne email ;;
    match existingUser with
    | Some _ =>
        ret (json 400
               [("success", JBool false);
                ("message", JStr "User already exists with this email")])
    | None =>
        normalized <- lift (toLowerCase_trim email) ;;
        user <- User_create env normalized password ;;
        token <- lift (generateToken (toHexString (user_id user))
                         (user_email user) (Date_now env)) ;;
        ret (json 201
               [("success", JBool true);
                ("message", JStr "User registered successfully");
                ("data", JObj [("user", user_summary user);
                               ("token", JStr token)])])
    end.

(** The register handler: its body inside [try], and its [catch] block. *)
Definition register (env : Env) (req : Request) : World -> Response * World :=
  try_catch (register_body env req)
    (fun error =>
       json 500 [("success", JBool false);
                 ("message", JStr "Error in registration");
                 ("error", JStr (message error))]).

(** [exports.login] (lines 78-132): the body of the [try]. *)
Definition login_body (env : Env) (req : Request) : M Response :=
  let email := prop (req_body req) "email" in
  let password := prop (req_body req) "password" in
  if negb (Js.truthy email) || negb (Js.truthy password)
  then ret (json 400 [("success", JBool false);
                      ("message", JStr "Please provide email and password")])
  else
    normalized <- lift (toLowerCase_trim email) ;;
    found <- User_findOne (Some (JStr normalized)) ;;
    match found with
    | None =>
        ret (json 401 [("success", JBool false);
                       ("message", JStr "Invalid email or password")])
    | Some user =>
        isPasswordValid <- comparePassword user password ;;
        if negb isPasswordValid
        then ret (json 401 [("success", JBool false);
                            ("message", JStr "Invalid email or password")])
        else
          token <- lift (generateToken (toHexString (user_id user))
                           (user_email user) (Date_now env)) ;;
          ret (json 200
                 [("success", JBool true);
                  ("message", JStr "Login successful");
                  ("data", JObj [("user", user_summary user);
                                 ("token", JStr token)])])
    end.

(** The login handler: its body inside [try], and its [catch] block. *)
Definition login (env : Env) (req : Request) : World -> Response * World :=
  try_catch (login_body env req)
    (fun error =>
       json 500 [("success", JBool false);
                 ("message", JStr "Error in login");
                 ("error", JStr (message error))]).

(** [req.header('Authorization')?.replace('Bearer ', '')] *)
Definition extract_token (header : option string) : option string :=
  option_map (JsString.remove_first "Bearer ") header.

(** [exports.getProfile] (lines 135-168): the body of the [try]. *)
Definition getProfile_body (env : Env) (req : Request) : M Response :=
  let token := extract_token (authorization req) in
  match token with
  | Some t =>
      if JsString.is_empty t
      then ret (json 401
                  [("success", JBool false);
                   ("message", JStr "Access denied. No token provided.")])
      else
        decoded <- lift (jwt.verify t JWT_SECRET (Date_now env)) ;;
        found <- User_findById (claim_id decoded) ;;
        match found with
        | None => ret (json 404 [("success", JBool false);
                                 ("message", JStr "User not found")])
        | Some user =>
            ret (json 200 [("success", JBool true);
                           ("data", User_toJSON user)])
        end
  | None =>
      ret (json 401
             [("success", JBool false);
              ("message", JStr "Access denied. No token provided.")])
  end.

(** The getProfile handler: its body inside [try], and its [catch] block. *)
Definition getProfile (env : Env) (req : Request) : World -> Response * World :=
  try_catch (getProfile_body env req)
    (fun error =>
       json 401 [("success", JBool false);
                 ("message", JStr "Invalid or expired token")]).

End Handlers.
End Controller.

(** ** Reading a response *)

Definition field (k : string) (j : Json) : option Json :=
  match j with
  | JObj o => assoc k o
  | _ => None
  end.

(** [response.body.data.token] *)
Definition response_token (r : Response) : option string :=
  match field "data" (body r) with
  | Some d => match field "token" d with
              | Some (JStr t) => Some t
              | _ => None
              end
  | None => None
  end.

(** The envelope: a boolean [success], and a string [message] with every
    [success: false]. *)
Definition enveloped (r : Response) : Prop :=
  exists b,
    field "success" (body r) = Some (JBool b)
    /\ (b = false -> exists m, field "message" (body r) = Some (JStr m)).

(** ** Worlds later requests can reach *)

(** The store changes by the requests the application serves and by the
    connection going down or coming back. *)
Inductive Reach {R : JsRuntime} {B : Bcrypt} {J : Jwt} (w : World)
  : World -> Prop :=
| reach_refl : Reach w w
| reach_request w1 ep env req :
    Reach w w1 -> Reach w (snd (Server.app ep env req w1))
| reach_connection w1 b :
    Reach w w1 -> Reach w {| users := users w1; connected := b |}.

(** ** Vocabulary of the claims *)

Section Vocabulary.
Context {R : JsRuntime} {B : Bcrypt} {J : Jwt} {U : UserModel}.

(** Normalization of an email: lowercase, then trim. *)
Definition normalize (s : string) : string :=
  JsString.trim (JsString.toLowerCase s).

(** The document that a successful registration of [e], [p] stores. *)
Definition registered (env : Env) (e p : string) : UserDoc :=
  Server.new_User env (normalize e) (hashpw p 10 (genSalt env)).

(** The filters of [User.findOne] after [normalize], and of
    [User.findById]. *)
Definition by_email (e : string) (u : UserDoc) : bool :=
  String.eqb (user_email u) (Server.email_setters (normalize e)).

Definition by_id (id : ObjectId) (u : UserDoc) : bool :=
  ObjectId_eqb (user_id u) id.

(** The claims and the token that [jwt.sign] makes at a clock. *)
Definition claims_at (id email : string) (now : Z) : Claims :=
  {| claim_id := id; claim_email := email;
     iat := (now / 1000)%Z;
     exp := (now / 1000 + jwt.seconds_7d)%Z |}.

Definition token_for (u : UserDoc) (secret : string) (now : Z) : string :=
  jwt_encode (claims_at (toHexString (user_id u)) (user_email u) now) secret.

(** The responses of server.js by kind. *)
Definition created_response (u : UserDoc) (token : string) : Response :=
  json 201 [("success", JBool true);
            ("message", JStr "User registered successfully");
            ("data", JObj [("user", Server.user_summary u);
                           ("token", JStr token)])].

Definition logged_in_response (u : UserDoc) (token : string) : Response :=
  json 200 [("success", JBool true);
            ("message", JStr "Login successful");
            ("data", JObj [("user", Server.user_summary u);
                           ("token", JStr token)])].

Definition already_exists : Response :=
  json 400 [("success", JBool false);
            ("message", JStr "User already exists with this email")].

Definition invalid_credentials : Response :=
  json 401 [("success", JBool false);
            ("message", JStr "Invalid email or password")].

Definition invalid_or_expired : Response :=
  json 401 [("success", JBool false);
            ("message", JStr "Invalid or expired token")].

Definition no_token_provided (m : string) : Response :=
  json 401 [("success", JBool false); ("message", JStr m)].

(** A 400 with [success: false] and one of the given messages. *)
Definition validation_error (messages : list string) (r : Response) : Prop :=
  exists m, In m messages
            /\ r = json 400 [("success", JBool false); ("message", JStr m)].

(** [v] is a string or an array whose length is below [n]. *)
Definition shorter_than (n : nat) (v : JsVal) : Prop :=
  (exists s, v = Some (JStr s) /\ String.length s < n)
  \/ (exists l, v = Some (JArr l) /\ List.length l < n).

(** Optional whitespace of an HTTP field: space and horizontal tab. *)
Definition is_ows (c : ascii) : bool :=
  let n := nat_of_ascii c in (n =? 32) || (n =? 9).

Definition starts_with_ows (s : string) : bool :=
  match s with
  | EmptyString => false
  | String c _ => is_ows c
  end.

Fixpoint ends_with_ows (s : string) : bool :=
  match s with
  | EmptyString => false
  | String c EmptyString => is_ows c
  | String _ r => ends_with_ows r
  end.

(** A field value as Node's HTTP parser hands it to Express in
    [req.headers]: the whitespace around the value of the field line is
    not part of it. *)
Definition field_value (h : string) : bool :=
  negb (starts_with_ows h) && negb (ends_with_ows h).

(** The Authorization header of the request, if any, is a field value. *)
Definition received (req : Request) : Prop :=
  forall h, authorization req = Some h -> field_value h = true.

(** What [jwt.verify] throws. *)
Definition expired : Exn :=
  {| name := TokenExpiredError; message := "jwt expired" |}.

(** The handler answers the request with a body that carries token [t]. *)
Definition issues (handler : Env -> Request -> World -> Response * World)
           (env : Env) (req : Request) (w : World) (t : string) : Prop :=
  response_token (fst (handler env req w)) = Some t.

Definition server_issues (env : Env) (req : Request) (w : World)
           (t : string) : Prop :=
  issues Server.register env req w t \/ issues Server.login env req w t.

Definition controller_issues (penv : ProcessEnv) (env : Env) (req : Request)
           (w : World) (t : string) : Prop :=
  issues (Controller.register penv) env req w t
  \/ issues (Controller.login penv) env req w t.

End Vocabulary.

(** What register of the controller needs of the User model, in the words
    of the spec (section 4.1: records are keyed by normalized email): a
    record created under a normalized email is found by every email that
    normalizes to it, and looking it up changes nothing. *)
Definition model_finds_created (U : UserModel) : Prop :=
  forall env e password w u w',
    User_create env (normalize e) password w = (Ok u, w') ->
    forall e', normalize e' = normalize e ->
    exists u', User_findOne (Some (JStr e')) w' = (Ok (Some u'), w').

(** ** Vocabulary of the further properties *)

Section StoreVocabulary.
Context {R : JsRuntime} {B : Bcrypt} {J : Jwt} {U : UserModel}.

(** A stored document as the schema wants it: the setters leave its email
    as it is, and neither required path is empty. *)
Definition well_formed (u : UserDoc) : Prop :=
  Server.email_setters (user_email u) = user_email u
  /\ user_email u <> EmptyString
  /\ user_password u <> EmptyString.

(** The collection holds one document per email and per id, all of them
    well formed. *)
Definition store_ok (w : World) : Prop :=
  NoDup (map user_email (users w))
  /\ NoDup (map user_id (users w))
  /\ Forall well_formed (users w).

(** The world with every stored password hash blanked. *)
Definition redact_password (u : UserDoc) : UserDoc :=
  {| user_id := user_id u; user_email := user_email u;
     user_password := EmptyString; user_createdAt := user_createdAt u |}.

Definition redact (w : World) : World :=
  {| users := map redact_password (users w); connected := connected w |}.

(** The status codes a route of server.js answers with. *)
Definition statuses (ep : Server.Endpoint) : list nat :=
  match ep with
  | Server.Health => [200]
  | Server.Register => [201; 400; 500]
  | Server.Login => [200; 400; 401; 500]
  | Server.Profile => [200; 401; 404]
  | Server.NotFound => [404]
  | Server.ErrorHandler _ => [500]
  end.

(** [response.body.data.user[k]], when it is a string. *)
Definition response_user (k : string) (r : Response) : option string :=
  match field "data" (body r) with
  | Some d => match field "user" d with
              | Some u => match field k u with
                          | Some (JStr v) => Some v
                          | _ => None
                          end
              | None => None
              end
  | None => None
  end.

(** The 400 of register and login for a falsy email or password. *)
Definition credentials_required (m : string) : Response :=
  json 400 [("success", JBool false); ("message", JStr m)].

(** The 500 of a catch block: its message and the exception's. *)
Definition server_error (m : string) (e : Exn) : Response :=
  json 500 [("success", JBool false); ("message", JStr m);
            ("error", JStr (message e))].

Definition not_a_function : Exn :=
  {| name := TypeError; message := "email.toLowerCase is not a function" |}.

Definition user_not_found : Response :=
  json 404 [("success", JBool false); ("message", JStr "User not found")].

(** What getProfile of the controller answers once the token has been
    verified: the lookup of the subject decides. *)
Definition controller_lookup (id : string) (w : World) : Response * World :=
  match User_findById id w with
  | (Ok (Some u), w') =>
      (json 200 [("success", JBool true); ("data", User_toJSON u)], w')
  | (Ok None, w') => (user_not_found, w')
  | (Throw _, w') => (invalid_or_expired, w')
  end.

End StoreVocabulary.

(** ** A concrete runtime and concrete libraries

    Small implementations of the three interfaces, with which the
    handlers compute and which satisfy the laws used as hypotheses. *)

Module Sample.

Definition decimal (z : Z) : string := NilEmpty.string_of_int (Z.to_int z).

Definition of_decimal (s : string) : Z :=
  match NilEmpty.int_of_string s with
  | Some d => Z.of_int d
  | None => 0%Z
  end.

#[export] Instance runtime : JsRuntime := {
  string_to_number := fun _ => PrimFloat.nan;
  number_to_string := fun _ => "0";
  date_to_iso := decimal;
  duplicate_key_message := fun id email =>
    "E11000 duplicate key error collection: splito.users dup key: "
    ++ id ++ " " ++ email
}.

(** The hash keeps the password behind a version prefix; the salt and the
    cost are not used. *)
#[export] Instance bcrypt : Bcrypt := {
  hashpw := fun p _ _ => "$2a$" ++ p;
  checkpw := fun p h => String.eqb ("$2a$" ++ p) h
}.

(** Two letters of a..p for a character. *)
Definition armor_char (c : ascii) : string :=
  let n := nat_of_ascii c in
  String (ascii_of_nat (97 + n / 16))
    (String (ascii_of_nat (97 + n mod 16)) EmptyString).

Fixpoint armor (s : string) : string :=
  match s with
  | EmptyString => EmptyString
  | String c r => armor_char c ++ armor r
  end.

Definition unarmor_char (h l : ascii) : ascii :=
  ascii_of_nat ((nat_of_ascii h - 97) * 16 + (nat_of_ascii l - 97)).

Fixpoint unarmor (s : string) : string :=
  match s with
  | String h (String l r) => String (unarmor_char h l) (unarmor r)
  | _ => EmptyString
  end.

(** The text before the first dot, and the text after it. *)
Fixpoint split_dot (s : string) : string * string :=
  match s with
  | EmptyString => (EmptyString, EmptyString)
  | String c r =>
      if Ascii.eqb c "."%char then (EmptyString, r)
      else let (a, b) := split_dot r in (String c a, b)
  end.

(** Five armored fields separated by dots; the key is the last. *)
Definition encode (c : Claims) (k : string) : string :=
  armor (claim_id c) ++ "." ++ armor (claim_email c) ++ "."
  ++ armor (decimal (iat c)) ++ "." ++ armor (decimal (exp c)) ++ "."
  ++ armor k.

Definition parse (t : string) : Claims * string :=
  let (f1, r1) := split_dot t in
  let (f2, r2) := split_dot r1 in
  let (f3, r3) := split_dot r2 in
  let (f4, r4) := split_dot r3 in
  ({| claim_id := unarmor f1; claim_email := unarmor f2;
      iat := of_decimal (unarmor f3); exp := of_decimal (unarmor f4) |},
   unarmor r4).

Definition decode (t k : string) : option Claims :=
  let (c, k') := parse t in
  if String.eqb k' k && String.eqb (encode c k') t then Some c else None.

#[export] Instance jwt : Jwt := {
  jwt_encode := encode;
  jwt_decode := decode;
  jwt_reject := fun _ _ => "invalid signature"
}.

(** Modelled from the spec: [models/User.model.js] is not among the
    sources.  The Credential Store and the Password Hasher of the spec
    (sections 4.1 and 4.2), on the collection and the schema that
    server.js declares: lookups by normalized email and by id, creation
    that hashes the password, verification against the stored hash. *)
#[export] Instance userModel : UserModel := {
  User_findOne := fun v =>
    match v with
    | Some (JStr s) => Server.User_findOne s
    | _ => ret None
    end;
  User_create := fun env email password =>
    bind (lift (bcrypt.hash password 10 (genSalt env)))
         (fun h => Server.save (Server.new_User env email h));
  comparePassword := fun user password =>
    lift (bcrypt.compare password (user_password user));
  User_findById := Server.User_findById;
  User_toJSON := Server.toJSON_without_password
}.

Definition empty_world : World := {| users := []; connected := true |}.

(** An ObjectId that ends in the byte [n]. *)
Definition oid (n : byte) : ObjectId :=
  OID x65 x4f x1a x2b x3c x4d x5e x6f x70 x81 x92 n.

Definition env_at (now : Z) (id : ObjectId) : Env :=
  {| Date_now := now; new_ObjectId := id; genSalt := "salt" |}.

Definition credentials (email password : string) : Request :=
  {| authorization := None;
     req_body := [("email", JStr email); ("password", JStr password)] |}.

Definition bearer (header : option string) : Request :=
  {| authorization := header; req_body := [] |}.

End Sample.

(** A scenario: [alice] registers at [env1] on the empty store. *)
Module Scenario.
Import Sample.

Definition unset : ProcessEnv := {| env_JWT_SECRET := None |}.
Definition env1 : Env := env_at 5000 (oid x01).
Definition env2 : Env := env_at 9000 (oid x02).
Definition w0 : World := empty_world.
Definition alice : Request := credentials "A@Test.com " "secret1".

(** The world after [alice] has registered. *)
Definition w1 : World := snd (Server.register env1 alice w0).

Definition alice_doc : UserDoc :=
  {| user_id := oid x01; user_email := "a@test.com";
     user_password := "$2a$secret1"; user_createdAt := 5000 |}.

(** The token of the login of [alice] at [env2]. *)
Definition alice_token : string :=
  token_for alice_doc Server.JWT_SECRET (Date_now env2).

End Scenario.

(** ** Tactics for handler bodies *)

(** Unfold the monad and the model operations in [H]. *)
Ltac expose H :=
  cbv beta iota zeta delta
    [Server.app Server.health Server.notFound Server.errorHandler
     Server.register Server.register_body Server.login Server.login_body
     Server.profile Server.profile_body Server.extract_token
     Server.User_findOne Server.User_findById Server.save
     Server.password_too_short
     Controller.register Controller.register_body Controller.login
     Controller.login_body Controller.getProfile Controller.getProfile_body
     Controller.extract_token Controller.password_too_short
     Controller.generateToken
     toLowerCase_trim bcrypt.hash bcrypt.compare option_map
     try_catch bind lift ret throw] in H.

(** Case analysis on an innermost scrutinee of [H]. *)
Ltac split_inner H :=
  match type of H with
  | context [match ?x with _ => _ end] =>
      lazymatch x with
      | context [match _ with _ => _ end] => fail
      | _ => destruct x eqn:?; cbv beta iota in H
      end
  end.

Ltac reduce H := cbv beta iota delta [negb orb andb] in H.

Ltac cases H := expose H; repeat split_inner H.

(** * Facts *)

(** ** Strings *)

Section ObjectIdFacts.

Lemma byte_of_hex_of_byte (b : byte) :
  match hex_of_byte b with
  | String h (String l EmptyString) => byte_of_hex h l = Some b
  | _ => False
  end.
Proof. destruct b; vm_compute; reflexivity. Qed.

Lemma bytes_of_hex_of_bytes (l : list byte) :
  bytes_of_hex (hex_of_bytes l) = Some l.
Proof.
  induction l as [|b r IH]; [reflexivity|].
  pose proof (byte_of_hex_of_byte b) as Hb.
  cbn [hex_of_bytes].
  destruct (hex_of_byte b) as [|h [|l [|? ?]]]; try contradiction.
  cbn [append bytes_of_hex]. rewrite Hb, IH. reflexivity.
Qed.

Lemma cast_toHexString (id : ObjectId) :
  cast_ObjectId (toHexString id) = Some id.
Proof.
  unfold cast_ObjectId, toHexString.
  rewrite bytes_of_hex_of_bytes. destruct id. reflexivity.
Qed.

Lemma toHexString_inj (a b : ObjectId) :
  toHexString a = toHexString b -> a = b.
Proof.
  intros H. pose proof (cast_toHexString a) as Ha.
  rewrite H, cast_toHexString in Ha. congruence.
Qed.

Lemma ObjectId_eqb_refl (a : ObjectId) : ObjectId_eqb a a = true.
Proof. apply String.eqb_refl. Qed.

Lemma ObjectId_eqb_sym (a b : ObjectId) : ObjectId_eqb a b = ObjectId_eqb b a.
Proof. apply String.eqb_sym. Qed.

Lemma ObjectId_eqb_eq (a b : ObjectId) : ObjectId_eqb a b = true <-> a = b.
Proof.
  unfold ObjectId_eqb. rewrite String.eqb_eq. split.
  - apply toHexString_inj.
  - congruence.
Qed.

Lemma ObjectId_eqb_neq (a b : ObjectId) : ObjectId_eqb a b = false <-> a <> b.
Proof.
  rewrite <- ObjectId_eqb_eq. destruct (ObjectId_eqb a b); split; congruence.
Qed.

End ObjectIdFacts.

Section StringFacts.
Import JsString.

Lemma is_empty_true (s : string) : is_empty s = true <-> s = EmptyString.
Proof. destruct s; simpl; split; congruence. Qed.

Lemma is_empty_false (s : string) : is_empty s = false <-> s <> EmptyString.
Proof. destruct s; simpl; split; congruence. Qed.

Lemma remove_first_eq (pat s : string) :
  remove_first pat s =
  if prefix pat s then drop (String.length pat) s
  else match s with
       | EmptyString => EmptyString
       | String c r => String c (remove_first pat r)
       end.
Proof. destruct s; reflexivity. Qed.

Lemma includes_eq (pat s : string) :
  includes pat s =
  (prefix pat s || match s with
                   | EmptyString => false
                   | String _ r => includes pat r
                   end).
Proof. destruct s; reflexivity. Qed.

Lemma prefix_append (p t : string) : prefix p (p ++ t) = true.
Proof.
  induction p as [|c p IH]; simpl.
  - destruct t; reflexivity.
  - destruct (ascii_dec c c) as [_|ne]; [exact IH | congruence].
Qed.

Lemma drop_append (p t : string) : drop (String.length p) (p ++ t) = t.
Proof.
  induction p as [|c p IH]; simpl; [destruct t; reflexivity | exact IH].
Qed.

Lemma prefix_split (p s : string) :
  prefix p s = true -> s = p ++ drop (String.length p) s.
Proof.
  revert s; induction p as [|c p IH]; intros s H.
  - destruct s; reflexivity.
  - destruct s as [|d s]; simpl in H; [discriminate|].
    destruct (ascii_dec c d) as [->|]; [|discriminate].
    simpl. f_equal. apply IH, H.
Qed.

(** The scheme in front of a token is removed whatever the token is. *)
Lemma remove_first_prefixed (pat t : string) :
  remove_first pat (pat ++ t) = t.
Proof.
  rewrite remove_first_eq, prefix_append. apply drop_append.
Qed.

(** A text without the pattern is left as it is. *)
Lemma remove_first_absent (pat s : string) :
  includes pat s = false -> remove_first pat s = s.
Proof.
  induction s as [|c s IH]; intros H; rewrite includes_eq in H;
    apply orb_false_iff in H; destruct H as [Hp Hr];
    rewrite remove_first_eq, Hp; [reflexivity|].
  f_equal. apply IH, Hr.
Qed.

(** Nothing is left only of the empty text and of the pattern itself. *)
Lemma remove_first_nothing (pat s : string) :
  remove_first pat s = EmptyString <-> s = EmptyString \/ s = pat.
Proof.
  split.
  - rewrite remove_first_eq. destruct (prefix pat s) eqn:Hp.
    + intros Hd. right. rewrite (prefix_split _ _ Hp), Hd.
      clear. induction pat; simpl; congruence.
    + destruct s; [now left | discriminate].
  - intros [-> | ->].
    + rewrite remove_first_eq. destruct (prefix pat ""); [|reflexivity].
      destruct pat; reflexivity.
    + assert (E : pat ++ "" = pat) by (induction pat; simpl; congruence).
      rewrite <- E at 2. apply remove_first_prefixed.
Qed.

Lemma compact_char_not_space (c : ascii) :
  compact_char c = true -> c <> " "%char.
Proof. intros H ->. discriminate H. Qed.

Lemma compact_prefix_Bearer (t : string) :
  compact t = true -> prefix "Bearer " t = false.
Proof.
  intros H.
  destruct (prefix "Bearer " t) eqn:Hp; [|reflexivity].
  rewrite (prefix_split _ _ Hp) in H. simpl in H.
  repeat (apply andb_true_iff in H; destruct H as [? H]).
  discriminate.
Qed.

(** A compact token contains no ['Bearer '], which has a space. *)
Lemma compact_no_Bearer (t : string) :
  compact t = true -> includes "Bearer " t = false.
Proof.
  induction t as [|c t IH]; intros H; rewrite includes_eq.
  - reflexivity.
  - rewrite (compact_prefix_Bearer _ H). simpl in H.
    apply andb_true_iff in H. apply IH, H.
Qed.

(** *** Normalization is idempotent *)

Lemma lower_char_idempotent (c : ascii) :
  lower_char (lower_char c) = lower_char c.
Proof. destruct c as [[] [] [] [] [] [] [] []]; reflexivity. Qed.

Lemma is_space_lower_char (c : ascii) : is_space (lower_char c) = is_space c.
Proof. destruct c as [[] [] [] [] [] [] [] []]; reflexivity. Qed.

Lemma toLowerCase_idempotent (s : string) :
  toLowerCase (toLowerCase s) = toLowerCase s.
Proof.
  induction s as [|c s IH]; simpl; [reflexivity|].
  rewrite lower_char_idempotent, IH. reflexivity.
Qed.

Lemma trimStart_toLowerCase (s : string) :
  trimStart (toLowerCase s) = toLowerCase (trimStart s).
Proof.
  induction s as [|c s IH]; simpl; [reflexivity|].
  rewrite is_space_lower_char. destruct (is_space c); [exact IH | reflexivity].
Qed.

Lemma trimEnd_toLowerCase (s : string) :
  trimEnd (toLowerCase s) = toLowerCase (trimEnd s).
Proof.
  induction s as [|c s IH]; simpl; [reflexivity|].
  rewrite IH, is_space_lower_char.
  destruct (trimEnd s); simpl; [destruct (is_space c)|]; reflexivity.
Qed.

Lemma trim_toLowerCase (s : string) :
  trim (toLowerCase s) = toLowerCase (trim s).
Proof.
  unfold trim. rewrite trimStart_toLowerCase. apply trimEnd_toLowerCase.
Qed.

Lemma trimEnd_idempotent (s : string) : trimEnd (trimEnd s) = trimEnd s.
Proof.
  induction s as [|c s IH]; simpl; [reflexivity|].
  destruct (trimEnd s) as [|d r] eqn:E.
  - destruct (is_space c) eqn:Hc; simpl; [reflexivity|].
    rewrite Hc. reflexivity.
  - change (trimEnd (String c (String d r)))
      with (match trimEnd (String d r) with
            | EmptyString =>
                if is_space c then EmptyString else String c EmptyString
            | r' => String c r'
            end).
    rewrite IH. reflexivity.
Qed.

(** What [trimStart] returns does not start with a space. *)
Lemma trimStart_head (s : string) :
  match trimStart s with
  | EmptyString => True
  | String c _ => is_space c = false
  end.
Proof.
  induction s as [|c s IH]; simpl; [exact I|].
  destruct (is_space c) eqn:Hc; [exact IH | exact Hc].
Qed.

Lemma trimStart_trimEnd (s : string) :
  match s with
  | EmptyString => True
  | String c _ => is_space c = false
  end ->
  trimStart (trimEnd s) = trimEnd s.
Proof.
  destruct s as [|c r]; [reflexivity|]. intros Hc. simpl.
  destruct (trimEnd r); simpl; rewrite Hc; simpl; rewrite ?Hc; reflexivity.
Qed.

Lemma trim_idempotent (s : string) : trim (trim s) = trim s.
Proof.
  unfold trim.
  rewrite (trimStart_trimEnd (trimStart s) (trimStart_head s)).
  apply trimEnd_idempotent.
Qed.

(** Lowercasing and trimming what has been lowercased and trimmed changes
    nothing: the setters of the schema leave a normalized email as it is. *)
Lemma normalize_idempotent (s : string) :
  trim (toLowerCase (trim (toLowerCase s))) = trim (toLowerCase s).
Proof.
  rewrite <- (trim_toLowerCase (toLowerCase s)), toLowerCase_idempotent.
  apply trim_idempotent.
Qed.

End StringFacts.

(** ** Lists of documents *)

Lemma find_app_some {A} (f : A -> bool) (l l' : list A) (a : A) :
  find f l = Some a -> find f (l ++ l') = Some a.
Proof.
  induction l as [|x l IH]; simpl; [discriminate|].
  destruct (f x); [trivial | exact IH].
Qed.

Lemma find_app_none {A} (f : A -> bool) (l l' : list A) :
  find f l = None -> find f (l ++ l') = find f l'.
Proof.
  induction l as [|x l IH]; simpl; [trivial|].
  destruct (f x); [discriminate | exact IH].
Qed.

Lemma find_none_of_existsb {A} (f g : A -> bool) (l : list A) :
  (forall x, f x = true -> g x = true) ->
  existsb g l = false -> find f l = None.
Proof.
  intros Hfg. induction l as [|x l IH]; simpl; [trivial|].
  intros H. apply orb_false_iff in H. destruct H as [Hx Hl].
  destruct (f x) eqn:Hf.
  - apply Hfg in Hf. congruence.
  - apply IH, Hl.
Qed.

(** ** jsonwebtoken: signing and verifying *)

Section JwtFacts.
Context {J : Jwt}.

Lemma sign_nonempty_secret (id email secret : string) (span now : Z) :
  secret <> EmptyString ->
  jwt.sign id email secret span now =
  Ok (jwt_encode {| claim_id := id; claim_email := email;
                    iat := (now / 1000)%Z;
                    exp := (now / 1000 + span)%Z |} secret).
Proof.
  intros H. unfold jwt.sign.
  apply is_empty_false in H. rewrite H. reflexivity.
Qed.

Lemma verify_encoded (c : Claims) (k : string) (now : Z) :
  jwt_roundtrip J ->
  jwt.verify (jwt_encode c k) k now =
  if (exp c <=? now / 1000)%Z
  then Throw {| name := TokenExpiredError; message := "jwt expired" |}
  else Ok c.
Proof. intros HJ. unfold jwt.verify. rewrite HJ. reflexivity. Qed.

Lemma verify_other_key (c : Claims) (k k' : string) (now : Z) :
  jwt_keys_apart J k k' ->
  jwt.verify (jwt_encode c k) k' now = Throw (jwt.rejected (jwt_encode c k) k').
Proof. intros HJ. unfold jwt.verify. rewrite (HJ c). reflexivity. Qed.

Lemma verified_is_compact (t k : string) (now : Z) (c : Claims) :
  jwt_compact J -> jwt.verify t k now = Ok c ->
  compact t = true /\ t <> EmptyString.
Proof.
  intros HJ. unfold jwt.verify.
  destruct (jwt_decode t k) as [c'|] eqn:Hd; [|discriminate].
  intros _. exact (HJ _ _ _ Hd).
Qed.

Lemma server_secret_nonempty : Server.JWT_SECRET <> EmptyString.
Proof. discriminate. Qed.

Lemma controller_secret_nonempty (penv : ProcessEnv) :
  Controller.JWT_SECRET penv <> EmptyString.
Proof.
  unfold Controller.JWT_SECRET.
  destruct (env_JWT_SECRET penv) as [s|]; [|discriminate].
  destruct (JsString.is_empty s) eqn:E; [discriminate|].
  apply is_empty_false, E.
Qed.

End JwtFacts.

(** ** server.js: what each outcome of a handler tells *)

Section ServerFacts.
Context {R : JsRuntime} {B : Bcrypt} {J : Jwt}.

(** A 201 from register: the request carried a string email and a string
    password, the store was reachable and held neither the normalized
    email nor the new id, and it now holds the new document last. *)
Lemma register_created (env : Env) (req : Request) (w w1 : World)
      (r : Response) :
  Server.register env req w = (r, w1) -> status r = 201 ->
  exists e p,
    prop (req_body req) "email" = Some (JStr e)
    /\ prop (req_body req) "password" = Some (JStr p)
    /\ 6 <= String.length p
    /\ connected w = true
    /\ find (by_email e) (users w) = None
    /\ existsb (Server.same_key (registered env e p)) (users w) = false
    /\ user_email (registered env e p) <> EmptyString
    /\ w1 = {| users := (users w ++ [registered env e p])%list;
               connected := true |}
    /\ r = created_response (registered env e p)
             (token_for (registered env e p) Server.JWT_SECRET (Date_now env)).
Proof.
  intros H Hs. cases H;
    try (injection H as <- <-; simpl in Hs; discriminate Hs).
  match goal with
  | He : prop _ "email" = Some (JStr ?e),
    Hp : prop _ "password" = Some (JStr ?p) |- _ => exists e, p
  end.
  match goal with
  | Hsign : jwt.sign _ _ _ _ _ = Ok _ |- _ =>
      rewrite sign_nonempty_secret in Hsign by discriminate;
      injection Hsign as <-
  end.
  match goal with
  | Hreq : negb (Server.required _ && _) = false |- _ =>
      apply negb_false_iff, andb_true_iff in Hreq; destruct Hreq as [Hreq _];
      apply negb_true_iff, is_empty_false in Hreq
  end.
  match goal with
  | Hlen : Js.length_lt _ _ = Some false |- _ =>
      simpl in Hlen; injection Hlen as Hlen; apply Nat.ltb_ge in Hlen
  end.
  injection H as <- <-.
  unfold registered, normalize.
  repeat split; trivial; congruence.
Qed.

(** A 200 from login: the store was reachable, the document found for the
    normalized email passed the password check, and the world is as it
    was. *)
Lemma login_succeeded (env : Env) (req : Request) (w w1 : World)
      (r : Response) :
  Server.login env req w = (r, w1) -> status r = 200 ->
  exists e u,
    prop (req_body req) "email" = Some (JStr e)
    /\ connected w = true
    /\ find (by_email e) (users w) = Some u
    /\ bcrypt.compare (prop (req_body req) "password") (user_password u)
       = Ok true
    /\ w1 = w
    /\ r = logged_in_response u
             (token_for u Server.JWT_SECRET (Date_now env)).
Proof.
  intros H Hs. cases H;
    try (injection H as <- <-; simpl in Hs; discriminate Hs).
  match goal with
  | He : prop _ "email" = Some (JStr ?e),
    Hf : find _ _ = Some ?u |- _ => exists e, u
  end.
  match goal with
  | Hsign : jwt.sign _ _ _ _ _ = Ok _ |- _ =>
      rewrite sign_nonempty_secret in Hsign by discriminate;
      injection Hsign as <-
  end.
  match goal with
  | Hc : negb (checkpw _ _) = false |- _ => apply negb_false_iff in Hc
  end.
  injection H as <- <-.
  repeat split; trivial; simpl; congruence.
Qed.

Lemma by_email_normalized (e e' : string) :
  normalize e' = normalize e -> by_email e' = by_email e.
Proof. intros H. unfold by_email. rewrite H. reflexivity. Qed.

Lemma email_setters_normalize (e : string) :
  Server.email_setters (normalize e) = normalize e.
Proof. apply normalize_idempotent. Qed.

Lemma normalized_nonempty (e : string) :
  Server.email_setters (normalize e) <> EmptyString -> e <> EmptyString.
Proof. intros H ->. apply H. reflexivity. Qed.

(** Register on a reachable store that holds the normalized email. *)
Lemma register_existing (env : Env) (req : Request) (w : World)
      (e p : string) (u : UserDoc) :
  prop (req_body req) "email" = Some (JStr e) -> e <> EmptyString ->
  prop (req_body req) "password" = Some (JStr p) -> 6 <= String.length p ->
  connected w = true -> find (by_email e) (users w) = Some u ->
  Server.register env req w = (already_exists, w).
Proof.
  intros He Hne Hp Hlen Hc Hf.
  destruct (Server.register env req w) as [r w'] eqn:H.
  assert (Ht : Js.truthy (Some (JStr e)) = true)
    by (destruct e; simpl; congruence).
  assert (Ht' : Js.truthy (Some (JStr p)) = true)
    by (destruct p; simpl in *; [lia | reflexivity]).
  assert (Hl : Js.length_lt (JStr p) 6 = Some false)
    by (simpl; f_equal; apply Nat.ltb_ge, Hlen).
  unfold by_email, normalize in Hf.
  expose H. rewrite He, Hp, Ht, Ht', Hl in H. reduce H.
  rewrite Hc, Hf in H. symmetry. exact H.
Qed.

(** Login on a reachable store that holds the normalized email. *)
Lemma login_found (env : Env) (req : Request) (w : World)
      (e p : string) (u : UserDoc) :
  prop (req_body req) "email" = Some (JStr e) -> e <> EmptyString ->
  prop (req_body req) "password" = Some (JStr p) -> p <> EmptyString ->
  connected w = true -> find (by_email e) (users w) = Some u ->
  Server.login env req w =
  (if checkpw p (user_password u)
   then logged_in_response u (token_for u Server.JWT_SECRET (Date_now env))
   else invalid_credentials, w).
Proof.
  intros He Hne Hp Hnp Hc Hf.
  destruct (Server.login env req w) as [r w'] eqn:H.
  assert (Ht : Js.truthy (Some (JStr e)) = true)
    by (destruct e; simpl; congruence).
  assert (Ht' : Js.truthy (Some (JStr p)) = true)
    by (destruct p; simpl; congruence).
  unfold by_email, normalize in Hf.
  expose H. rewrite He, Hp, Ht, Ht' in H. reduce H.
  rewrite Hc, Hf in H. reduce H.
  rewrite sign_nonempty_secret in H by discriminate.
  unfold token_for.
  destruct (checkpw p (user_password u)); reduce H;
    symmetry; exact H.
Qed.

(** Login on a reachable store that does not hold the normalized email. *)
Lemma login_unknown (env : Env) (req : Request) (w : World) (e : string) :
  prop (req_body req) "email" = Some (JStr e) -> e <> EmptyString ->
  Js.truthy (prop (req_body req) "password") = true ->
  connected w = true -> find (by_email e) (users w) = None ->
  Server.login env req w = (invalid_credentials, w).
Proof.
  intros He Hne Ht' Hc Hf.
  destruct (Server.login env req w) as [r w'] eqn:H.
  assert (Ht : Js.truthy (Some (JStr e)) = true)
    by (destruct e; simpl; congruence).
  unfold by_email, normalize in Hf.
  expose H. rewrite He, Ht, Ht' in H. reduce H.
  rewrite Hc, Hf in H. symmetry. exact H.
Qed.

(** Profile with a token that verifies, on a reachable store. *)
Lemma profile_verified (env : Env) (req : Request) (w : World)
      (h t : string) (c : Claims) (id : ObjectId) :
  authorization req = Some h ->
  JsString.remove_first "Bearer " h = t -> t <> EmptyString ->
  jwt.verify t Server.JWT_SECRET (Date_now env) = Ok c ->
  cast_ObjectId (claim_id c) = Some id ->
  connected w = true ->
  Server.profile env req w =
  (match find (by_id id) (users w) with
   | Some u => json 200 [("success", JBool true);
                         ("data", Server.toJSON_without_password u)]
   | None => json 404 [("success", JBool false);
                       ("message", JStr "User not found")]
   end, w).
Proof.
  intros Hh Ht Hne Hv Hid Hc.
  destruct (Server.profile env req w) as [r w'] eqn:H.
  expose H. rewrite Hh, Ht in H. apply is_empty_false in Hne.
  rewrite Hne, Hv, Hid, Hc in H. unfold by_id.
  destruct (find _ (users w)); simpl in H; symmetry; exact H.
Qed.

(** Profile with a token that verifies and whose id is no ObjectId. *)
Lemma profile_malformed_id (env : Env) (req : Request) (w : World)
      (h t : string) (c : Claims) :
  authorization req = Some h ->
  JsString.remove_first "Bearer " h = t -> t <> EmptyString ->
  jwt.verify t Server.JWT_SECRET (Date_now env) = Ok c ->
  cast_ObjectId (claim_id c) = None ->
  Server.profile env req w = (invalid_or_expired, w).
Proof.
  intros Hh Ht Hne Hv Hid.
  destruct (Server.profile env req w) as [r w'] eqn:H.
  expose H. rewrite Hh, Ht in H. apply is_empty_false in Hne.
  rewrite Hne, Hv, Hid in H. symmetry; exact H.
Qed.

(** No request removes or changes a stored document. *)
Lemma app_grows (ep : Server.Endpoint) (env : Env) (req : Request)
      (w : World) :
  exists l, users (snd (Server.app ep env req w)) = (users w ++ l)%list.
Proof.
  destruct (Server.app ep env req w) as [r w'] eqn:H.
  destruct ep; cases H; injection H as <- <-; simpl;
    solve [ exists []; symmetry; apply app_nil_r | eexists; reflexivity ].
Qed.

Lemma reach_grows (w w' : World) :
  Reach w w' -> exists l, users w' = (users w ++ l)%list.
Proof.
  induction 1 as [|w1 ep env req _ [l IH]|w1 b _ [l IH]].
  - exists []. symmetry. apply app_nil_r.
  - destruct (app_grows ep env req w1) as [l' H'].
    exists (l ++ l')%list. rewrite H', IH. symmetry. apply app_assoc.
  - exists l. exact IH.
Qed.

Lemma reach_find (f : UserDoc -> bool) (w w' : World) (u : UserDoc) :
  Reach w w' -> find f (users w) = Some u -> find f (users w') = Some u.
Proof.
  intros Hr Hf. destruct (reach_grows _ _ Hr) as [l ->].
  apply find_app_some, Hf.
Qed.

Lemma reach_trans (w w1 w2 : World) :
  Reach w w1 -> Reach w1 w2 -> Reach w w2.
Proof.
  intros H1 H2. induction H2; [assumption | |]; now constructor.
Qed.

(** After a registration the new document is the one found by its
    normalized email and by its id. *)
Lemma registered_found (env : Env) (e p : string) (w : World) :
  find (by_email e) (users w) = None ->
  existsb (Server.same_key (registered env e p)) (users w) = false ->
  let w1 := {| users := (users w ++ [registered env e p])%list;
               connected := true |} in
  find (by_email e) (users w1) = Some (registered env e p)
  /\ find (by_id (new_ObjectId env)) (users w1) = Some (registered env e p).
Proof.
  intros Hf Hk. simpl. split.
  - rewrite (find_app_none _ _ _ Hf). simpl.
    unfold by_email at 1. simpl. rewrite String.eqb_refl. reflexivity.
  - rewrite find_app_none.
    + simpl. unfold by_id. simpl. rewrite ObjectId_eqb_refl. reflexivity.
    + apply find_none_of_existsb
        with (g := Server.same_key (registered env e p)); [|exact Hk].
      intros x Hx. unfold by_id in Hx. unfold Server.same_key. simpl.
      rewrite ObjectId_eqb_sym, Hx. reflexivity.
Qed.

End ServerFacts.

(** ** Tokens in responses *)

Section Issued.
Context {R : JsRuntime} {B : Bcrypt} {J : Jwt} {U : UserModel}.
Variable penv : ProcessEnv.

Lemma server_register_issues (env : Env) (req : Request) (w : World)
      (t : string) :
  issues Server.register env req w t ->
  exists id email,
    t = jwt_encode (claims_at id email (Date_now env)) Server.JWT_SECRET.
Proof.
  unfold issues. destruct (Server.register env req w) as [r w'] eqn:H.
  intros Ht. cases H; injection H as <- <-; try discriminate Ht.
  all: match goal with
       | Hsign : jwt.sign _ _ _ _ _ = Ok _ |- _ =>
           rewrite sign_nonempty_secret in Hsign by discriminate;
           injection Hsign as <-
       end.
  all: injection Ht as <-; do 2 eexists; reflexivity.
Qed.

Lemma server_login_issues (env : Env) (req : Request) (w : World)
      (t : string) :
  issues Server.login env req w t ->
  exists id email,
    t = jwt_encode (claims_at id email (Date_now env)) Server.JWT_SECRET.
Proof.
  unfold issues. destruct (Server.login env req w) as [r w'] eqn:H.
  intros Ht. cases H; injection H as <- <-; try discriminate Ht.
  all: match goal with
       | Hsign : jwt.sign _ _ _ _ _ = Ok _ |- _ =>
           rewrite sign_nonempty_secret in Hsign by discriminate;
           injection Hsign as <-
       end.
  all: injection Ht as <-; do 2 eexists; reflexivity.
Qed.

Lemma controller_register_issues (env : Env) (req : Request) (w : World)
      (t : string) :
  issues (Controller.register penv) env req w t ->
  exists id email,
    t = jwt_encode (claims_at id email (Date_now env))
          (Controller.JWT_SECRET penv).
Proof.
  unfold issues.
  destruct (Controller.register penv env req w) as [r w'] eqn:H.
  intros Ht. cases H; injection H as <- <-; try discriminate Ht.
  all: match goal with
       | Hsign : jwt.sign _ _ _ _ _ = Ok _ |- _ =>
           rewrite sign_nonempty_secret in Hsign
             by apply controller_secret_nonempty;
           injection Hsign as <-
       end.
  all: injection Ht as <-; do 2 eexists; reflexivity.
Qed.

Lemma controller_login_issues (env : Env) (req : Request) (w : World)
      (t : string) :
  issues (Controller.login penv) env req w t ->
  exists id email,
    t = jwt_encode (claims_at id email (Date_now env))
          (Controller.JWT_SECRET penv).
Proof.
  unfold issues.
  destruct (Controller.login penv env req w) as [r w'] eqn:H.
  intros Ht. cases H; injection H as <- <-; try discriminate Ht.
  all: match goal with
       | Hsign : jwt.sign _ _ _ _ _ = Ok _ |- _ =>
           rewrite sign_nonempty_secret in Hsign
             by apply controller_secret_nonempty;
           injection Hsign as <-
       end.
  all: injection Ht as <-; do 2 eexists; reflexivity.
Qed.

End Issued.

(** ** The concrete libraries satisfy the laws *)

Module SampleFacts.
Import Sample.

Lemma bcrypt_law : bcrypt_correct Sample.bcrypt.
Proof. intros p rounds s. simpl. apply String.eqb_refl. Qed.

Lemma armor_char_spec (c : ascii) :
  exists h l,
    armor_char c = String h (String l EmptyString)
    /\ unarmor_char h l = c
    /\ compact_char h = true /\ compact_char l = true
    /\ Ascii.eqb h "."%char = false /\ Ascii.eqb l "."%char = false.
Proof.
  destruct c as [[] [] [] [] [] [] [] []];
    do 2 eexists; repeat split; reflexivity.
Qed.

Lemma armor_cons (c : ascii) (s : string) :
  armor (String c s) = armor_char c ++ armor s.
Proof. reflexivity. Qed.

Lemma unarmor_armor (s : string) : unarmor (armor s) = s.
Proof.
  induction s as [|c s IH]; [reflexivity|].
  destruct (armor_char_spec c) as (h & l & E & U & _).
  rewrite armor_cons, E. simpl. rewrite U, IH. reflexivity.
Qed.

Lemma split_dot_armor (s rest : string) :
  split_dot (armor s ++ "." ++ rest) = (armor s, rest).
Proof.
  induction s as [|c s IH]; [reflexivity|].
  destruct (armor_char_spec c) as (h & l & E & _ & _ & _ & Hh & Hl).
  rewrite armor_cons, E. simpl. simpl in IH.
  rewrite Hh, Hl, IH. reflexivity.
Qed.

Lemma of_decimal_decimal (z : Z) : of_decimal (decimal z) = z.
Proof.
  unfold of_decimal, decimal. rewrite NilEmpty.isi. apply DecimalZ.of_to.
Qed.

Lemma parse_encode (c : Claims) (k : string) : parse (encode c k) = (c, k).
Proof.
  unfold parse, encode.
  rewrite !split_dot_armor, !unarmor_armor, !of_decimal_decimal.
  destruct c; reflexivity.
Qed.

Lemma compact_append (a b : string) :
  compact (a ++ b) = compact a && compact b.
Proof.
  induction a as [|c a IH]; simpl; [reflexivity|].
  rewrite IH. apply andb_assoc.
Qed.

Lemma compact_armor (s : string) : compact (armor s) = true.
Proof.
  induction s as [|c s IH]; [reflexivity|].
  destruct (armor_char_spec c) as (h & l & E & _ & Hh & Hl & _).
  rewrite armor_cons, E. simpl. simpl in IH. rewrite Hh, Hl, IH. reflexivity.
Qed.

Lemma compact_encode (c : Claims) (k : string) : compact (encode c k) = true.
Proof.
  unfold encode. rewrite !compact_append, !compact_armor. reflexivity.
Qed.

Lemma encode_nonempty (c : Claims) (k : string) : encode c k <> EmptyString.
Proof. unfold encode. destruct (armor (claim_id c)); discriminate. Qed.

Lemma jwt_roundtrip_law : jwt_roundtrip Sample.jwt.
Proof.
  intros c k. simpl. unfold decode. rewrite parse_encode.
  rewrite !String.eqb_refl. reflexivity.
Qed.

Lemma jwt_keys_apart_law (k k' : string) :
  k <> k' -> jwt_keys_apart Sample.jwt k k'.
Proof.
  intros Hk c. simpl. unfold decode. rewrite parse_encode.
  apply String.eqb_neq in Hk. rewrite Hk. reflexivity.
Qed.

Lemma find_app_last {A : Type} (f : A -> bool) (l : list A) (x : A) :
  f x = true -> exists y, find f (l ++ [x]) = Some y.
Proof.
  intros Hx. induction l as [|a l IH]; simpl.
  - rewrite Hx. eauto.
  - destruct (f a); eauto.
Qed.

Lemma model_finds_created_law : model_finds_created Sample.userModel.
Proof.
  intros env e password w u w' Hcr e' Hn.
  cbv beta iota delta [User_create Sample.userModel bind lift bcrypt.hash
                       Server.save] in Hcr.
  repeat split_inner Hcr; try discriminate Hcr.
  injection Hcr as <- <-.
  match goal with
  | Hc : negb (connected w) = false |- _ => apply negb_false_iff in Hc
  end.
  cbv beta iota delta [User_findOne Sample.userModel Server.User_findOne].
  cbn [connected users].
  match goal with Hc : connected w = true |- _ => rewrite Hc end.
  match goal with
  | |- context [find ?f (?l ++ [?x])%list] =>
      destruct (find_app_last f l x) as [y Hy]
  end.
  { cbn [user_email Server.new_User].
    rewrite email_setters_normalize. apply String.eqb_eq.
    symmetry. exact Hn. }
  exists y. rewrite Hy. reflexivity.
Qed.

Lemma jwt_compact_law : jwt_compact Sample.jwt.
Proof.
  intros t k c. simpl. unfold decode.
  destruct (parse t) as [c' k'].
  destruct (String.eqb k' k); [|discriminate].
  destruct (String.eqb (encode c' k') t) eqn:E; [|discriminate].
  intros _. apply String.eqb_eq in E. subst t.
  split; [apply compact_encode | apply encode_nonempty].
Qed.

End SampleFacts.

(** * The claims *)

Section Claims.
Context {R : JsRuntime} {B : Bcrypt} {J : Jwt} {U : UserModel}.
Variable penv : ProcessEnv.

(** C8.  A register request whose email is absent, whose password is
    absent, or whose password has a length below 6 is answered with the
    validation error (400, [success: false]), and the world, so the
    collection of users, is left as it was; in server.js and in the
    controller, whatever the User model. *)
Theorem register_rejects_invalid_input
        (env : Env) (req : Request) (w : World) :
  let email := prop (req_body req) "email" in
  let password := prop (req_body req) "password" in
  email = undefined \/ password = undefined \/ shorter_than 6 password ->
  (validation_error ["Email and password are required";
                     "Password must be at least 6 characters"]
     (fst (Server.register env req w))
   /\ snd (Server.register env req w) = w)
  /\ (validation_error ["Please provide email and password";
                        "Password must be at least 6 characters"]
        (fst (Controller.register penv env req w))
      /\ snd (Controller.register penv env req w) = w).
Proof.
  intros email password H.
  unfold Server.register, Server.register_body, Controller.register,
    Controller.register_body, try_catch, bind, lift.
  fold email password.
  destruct (negb (Js.truthy email) || negb (Js.truthy password)) eqn:V.
  - simpl. repeat split; eexists; (split; [|reflexivity]); simpl; auto.
  - assert (S : Server.password_too_short password = Ok true
                /\ Controller.password_too_short password = Ok true).
    { destruct H as [H | [H | [(s & H & L) | (l & H & L)]]].
      - rewrite H in V. discriminate V.
      - rewrite H, orb_true_r in V. discriminate V.
      - rewrite H. simpl. apply Nat.ltb_lt in L. rewrite L. auto.
      - rewrite H. simpl. apply Nat.ltb_lt in L. rewrite L. auto. }
    destruct S as [-> ->]. simpl.
    repeat split; eexists; (split; [|reflexivity]); simpl; auto.
Qed.

(** A login request with a string email is answered in one way, 401 with
    [success: false] and the message ['Invalid email or password'], when
    the store holds no user for the normalized email and when it holds
    one and the password check returns false, which [bcrypt.compare] does
    for a string password only; in server.js and in the controller. *)
Theorem login_failures_are_indistinguishable
        (env : Env) (req : Request) (e : string) (u : UserDoc)
        (w1 w2 w1' w2' : World) :
  let password := prop (req_body req) "password" in
  prop (req_body req) "email" = Some (JStr e) -> e <> EmptyString ->
  Js.truthy password = true ->
  (fst (Server.User_findOne (normalize e) w1) = Ok None ->
   fst (Server.User_findOne (normalize e) w2) = Ok (Some u) ->
   bcrypt.compare password (user_password u) = Ok false ->
   fst (Server.login env req w1) = invalid_credentials
   /\ fst (Server.login env req w2) = fst (Server.login env req w1))
  /\ (User_findOne (Some (JStr (normalize e))) w1 = (Ok None, w1') ->
      User_findOne (Some (JStr (normalize e))) w2 = (Ok (Some u), w2') ->
      fst (comparePassword u password w2') = Ok false ->
      fst (Controller.login penv env req w1) = invalid_credentials
      /\ fst (Controller.login penv env req w2)
         = fst (Controller.login penv env req w1)).
Proof.
  intros password He Hne Ht. split.
  - intros H1 H2 Hc.
    unfold Server.User_findOne in H1, H2.
    destruct (connected w1) eqn:C1; [|discriminate H1].
    destruct (connected w2) eqn:C2; [|discriminate H2].
    simpl in H1, H2. injection H1 as H1. injection H2 as H2.
    rewrite (login_unknown env req w1 e He Hne Ht C1 H1).
    split; [reflexivity|].
    unfold bcrypt.compare in Hc.
    destruct password as [[| | |p| |]|] eqn:Hp; try discriminate Hc.
    injection Hc as Hc.
    assert (Hnp : p <> EmptyString) by (intros ->; discriminate Ht).
    rewrite (login_found env req w2 e p u He Hne Hp Hnp C2 H2), Hc.
    reflexivity.
  - intros H1 H2 Hc.
    assert (Hte : Js.truthy (Some (JStr e)) = true)
      by (destruct e; simpl; congruence).
    assert (L1 : fst (Controller.login penv env req w1) = invalid_credentials).
    { destruct (Controller.login penv env req w1) as [r w'] eqn:H.
      expose H. fold password in H. rewrite He, Hte, Ht in H. reduce H.
      unfold normalize in H1. rewrite H1 in H.
      injection H as <- _. reflexivity. }
    split; [exact L1|]. rewrite L1.
    destruct (Controller.login penv env req w2) as [r w'] eqn:H.
    expose H. fold password in H. rewrite He, Hte, Ht in H. reduce H.
    unfold normalize in H2. rewrite H2 in H.
    destruct (comparePassword u password w2') as [[[]|] w3];
      simpl in Hc; try discriminate Hc.
    injection H as <- _. reflexivity.
Qed.

(** In server.js, once a register request has been answered 201, a
    register request in any world reached later, whose email normalizes
    (lowercase, trim) to the same string and whose password is a string
    of at least 6 characters, is answered 400, [success: false], ['User
    already exists with this email'], and stores nothing, whatever the
    requests served in between, as long as the store is reachable when it
    arrives. *)
Theorem register_same_email_again
        (env1 env2 : Env) (req1 req2 : Request) (w w2 : World)
        (e1 e2 p2 : string) :
  prop (req_body req1) "email" = Some (JStr e1) ->
  prop (req_body req2) "email" = Some (JStr e2) ->
  normalize e2 = normalize e1 ->
  prop (req_body req2) "password" = Some (JStr p2) ->
  6 <= String.length p2 ->
  status (fst (Server.register env1 req1 w)) = 201 ->
  Reach (snd (Server.register env1 req1 w)) w2 ->
  connected w2 = true ->
  Server.register env2 req2 w2 = (already_exists, w2).
Proof.
  intros He1 He2 Hn Hp2 Hlen Hs Hr Hc.
  destruct (Server.register env1 req1 w) as [r1 w1] eqn:H1.
  simpl in Hs, Hr.
  destruct (register_created _ _ _ _ _ H1 Hs)
    as (e & p & He & _ & _ & _ & Hf & Hk & Hmail & -> & _).
  rewrite He1 in He. injection He as <-.
  destruct (registered_found env1 e1 p w Hf Hk) as [Hfound _].
  apply (reach_find _ _ _ _ Hr) in Hfound.
  rewrite <- (by_email_normalized _ _ Hn) in Hfound.
  apply (register_existing env2 req2 w2 e2 p2 (registered env1 e1 p));
    trivial.
  apply normalized_nonempty. unfold registered in Hmail. simpl in Hmail.
  rewrite Hn. exact Hmail.
Qed.

(** Register with a string email and a password that passes validation,
    on a reachable store that holds the normalized email. *)
Lemma register_taken (env : Env) (req : Request) (w : World)
      (e : string) (u : UserDoc) :
  prop (req_body req) "email" = Some (JStr e) -> e <> EmptyString ->
  Js.truthy (prop (req_body req) "password") = true ->
  Server.password_too_short (prop (req_body req) "password") = Ok false ->
  connected w = true -> find (by_email e) (users w) = Some u ->
  Server.register env req w = (already_exists, w).
Proof.
  intros He Hne Ht' Hshort Hc Hf.
  destruct (Server.register env req w) as [r w'] eqn:H.
  assert (Ht : Js.truthy (Some (JStr e)) = true)
    by (destruct e; simpl; congruence).
  unfold by_email, normalize in Hf.
  cbv beta zeta delta [Server.register Server.register_body try_catch] in H.
  rewrite He, Ht, Ht', Hshort in H.
  cbv beta iota delta [bind lift ret toLowerCase_trim Server.User_findOne
                       negb orb] in H.
  rewrite Hc, Hf in H. symmetry. exact H.
Qed.

(** C1.  When a register request has been answered 201, the register
    request that follows it with an email that normalizes (lowercase,
    trim) to the same string, and with a password that passes validation,
    is answered 400, [success: false], ['User already exists with this
    email'], and stores nothing, whatever the case and the surrounding
    whitespace of either email.  A request passes validation when its
    email and its password are truthy and the length of the password is
    not below 6.  In server.js, and in the controller over
    a User model that finds by any spelling of an email the record it
    created under the normalized one. *)
Theorem second_registration_is_refused
        (env1 env2 : Env) (req1 req2 : Request) (w : World)
        (e1 e2 : string) :
  let password := prop (req_body req2) "password" in
  prop (req_body req1) "email" = Some (JStr e1) ->
  prop (req_body req2) "email" = Some (JStr e2) -> e2 <> EmptyString ->
  normalize e2 = normalize e1 ->
  Js.truthy password = true ->
  (status (fst (Server.register env1 req1 w)) = 201 ->
   Server.password_too_short password = Ok false ->
   let w1 := snd (Server.register env1 req1 w) in
   Server.register env2 req2 w1 = (already_exists, w1))
  /\ (model_finds_created U ->
      status (fst (Controller.register penv env1 req1 w)) = 201 ->
      Controller.password_too_short password = Ok false ->
      let w1 := snd (Controller.register penv env1 req1 w) in
      Controller.register penv env2 req2 w1 = (already_exists, w1)).
Proof.
  intros password He1 He2 Hne2 Hn Ht. split.
  - intros Hs Hshort.
    destruct (Server.register env1 req1 w) as [r1 w1] eqn:H1.
    simpl in Hs |- *.
    destruct (register_created _ _ _ _ _ H1 Hs)
      as (e & p & He & _ & _ & _ & Hf & Hk & Hmail & -> & _).
    rewrite He1 in He. injection He as <-.
    destruct (registered_found env1 e1 p w Hf Hk) as [Hfound _].
    rewrite <- (by_email_normalized _ _ Hn) in Hfound.
    apply (register_taken env2 req2 _ e2 (registered env1 e1 p)); trivial.
  - intros HM Hs Hshort.
    destruct (Controller.register penv env1 req1 w) as [r1 w1] eqn:H1.
    simpl in Hs |- *.
    assert (Hfound : exists u, User_findOne (Some (JStr e2)) w1
                               = (Ok (Some u), w1)).
    { expose H1. rewrite He1 in H1. repeat split_inner H1.
      all: injection H1 as <- <-; simpl in Hs; try discriminate Hs.
      all: match goal with
           | Hcr : User_create _ _ _ _ = (Ok _, _) |- _ =>
               destruct (HM _ e1 _ _ _ _ Hcr e2 Hn) as [u' Hu'];
               exists u'; exact Hu'
           end. }
    destruct Hfound as [u Hu].
    destruct (Controller.register penv env2 req2 w1) as [r w'] eqn:H.
    assert (Hte : Js.truthy (Some (JStr e2)) = true)
      by (destruct e2; simpl; congruence).
    cbv beta zeta delta [Controller.register Controller.register_body
                         try_catch] in H.
    fold password in H. rewrite He2, Hte, Ht, Hshort in H.
    cbv beta iota delta [bind lift ret negb orb] in H.
    rewrite Hu in H. symmetry. exact H.
Qed.

(** C6.  After a register request with email [e] and password [p] has
    been answered 201, a later login with [e] and [p] on a reachable
    store is answered 200 with [success: true] and a token; verification
    accepts the token, its subject is the id of the registered user, and
    profile with that token, while it has not expired, returns that
    user.  The password hasher is assumed to accept the hashes it makes,
    and the token library to decode what it encodes. *)
Theorem login_after_register
        (env1 env2 : Env) (req1 req2 : Request) (w w2 : World)
        (e p : string) :
  bcrypt_correct B -> jwt_roundtrip J -> jwt_compact J ->
  prop (req_body req1) "email" = Some (JStr e) ->
  prop (req_body req1) "password" = Some (JStr p) ->
  status (fst (Server.register env1 req1 w)) = 201 ->
  Reach (snd (Server.register env1 req1 w)) w2 ->
  connected w2 = true ->
  prop (req_body req2) "email" = Some (JStr e) ->
  prop (req_body req2) "password" = Some (JStr p) ->
  exists u t c,
    fst (Server.register env1 req1 w)
    = created_response u (token_for u Server.JWT_SECRET (Date_now env1))
    /\ user_email u = normalize e
    /\ Server.login env2 req2 w2 = (logged_in_response u t, w2)
    /\ jwt.verify t Server.JWT_SECRET (Date_now env2) = Ok c
    /\ claim_id c = toHexString (user_id u)
    /\ forall env3 req3 w3,
         Reach w2 w3 -> connected w3 = true ->
         authorization req3 = Some ("Bearer " ++ t) ->
         (Date_now env3 / 1000 < exp c)%Z ->
         Server.profile env3 req3 w3
         = (json 200 [("success", JBool true);
                      ("data", Server.toJSON_without_password u)], w3).
Proof.
  intros HB HJ HC He1 Hp1 Hs Hr Hc He2 Hp2.
  destruct (Server.register env1 req1 w) as [r1 w1] eqn:H1.
  simpl in Hs, Hr. simpl fst.
  destruct (register_created _ _ _ _ _ H1 Hs)
    as (e' & p' & He & Hp & Hlen & _ & Hf & Hk & Hmail & -> & ->).
  rewrite He1 in He. injection He as <-.
  rewrite Hp1 in Hp. injection Hp as <-.
  set (u := registered env1 e p) in *.
  destruct (registered_found env1 e p w Hf Hk) as [Hbe Hbi].
  fold u in Hbe, Hbi.
  apply (reach_find _ _ _ _ Hr) in Hbe. apply (reach_find _ _ _ _ Hr) in Hbi.
  assert (Hne : e <> EmptyString).
  { apply normalized_nonempty. exact Hmail. }
  assert (Hnp : p <> EmptyString) by (intros ->; simpl in Hlen; lia).
  exists u, (token_for u Server.JWT_SECRET (Date_now env2)),
         (claims_at (toHexString (user_id u)) (user_email u) (Date_now env2)).
  split; [reflexivity|]. split; [apply email_setters_normalize|]. split.
  { rewrite (login_found env2 req2 w2 e p u He2 Hne Hp2 Hnp Hc Hbe).
    unfold u at 1, registered. simpl user_password. rewrite HB. reflexivity. }
  assert (Hv : jwt.verify (token_for u Server.JWT_SECRET (Date_now env2))
                 Server.JWT_SECRET (Date_now env2)
               = Ok (claims_at (toHexString (user_id u)) (user_email u)
                       (Date_now env2))).
  { unfold token_for. rewrite (verify_encoded _ _ _ HJ). simpl exp.
    destruct (Z.leb_spec (Date_now env2 / 1000 + jwt.seconds_7d)
                         (Date_now env2 / 1000)) as [L|_]; [|reflexivity].
    unfold jwt.seconds_7d in L. lia. }
  split; [exact Hv|]. split; [reflexivity|].
  intros env3 req3 w3 Hr3 Hc3 Hh Hexp.
  destruct (verified_is_compact _ _ _ _ HC Hv) as [_ Hnonempty].
  rewrite (profile_verified env3 req3 w3 _
             (token_for u Server.JWT_SECRET (Date_now env2))
             (claims_at (toHexString (user_id u)) (user_email u)
                (Date_now env2)) (user_id u) Hh);
    trivial.
  - change (user_id u) with (new_ObjectId env1).
    rewrite (reach_find _ _ _ _ Hr3 Hbi). reflexivity.
  - apply remove_first_prefixed.
  - unfold token_for. rewrite (verify_encoded _ _ _ HJ).
    destruct (Z.leb_spec
                (exp (claims_at (toHexString (user_id u)) (user_email u)
                        (Date_now env2)))
                (Date_now env3 / 1000)) as [L|_]; [lia | reflexivity].
  - apply cast_toHexString.
Qed.

Lemma server_issues_signed (env : Env) (req : Request) (w : World)
      (t : string) :
  server_issues env req w t ->
  exists id email,
    t = jwt_encode (claims_at id email (Date_now env)) Server.JWT_SECRET.
Proof.
  intros [H|H];
    [apply (server_register_issues _ _ _ _ H)
    |apply (server_login_issues _ _ _ _ H)].
Qed.

Lemma controller_issues_signed (env : Env) (req : Request) (w : World)
      (t : string) :
  controller_issues penv env req w t ->
  exists id email,
    t = jwt_encode (claims_at id email (Date_now env))
          (Controller.JWT_SECRET penv).
Proof.
  intros [H|H];
    [apply (controller_register_issues _ _ _ _ _ H)
    |apply (controller_login_issues _ _ _ _ _ H)].
Qed.

(** A token made at clock [T] verifies at [T] and 6 days 23 hours later,
    and is expired 7 days and 1 second later. *)
Lemma lifetime (id email secret : string) (T : Z) :
  jwt_roundtrip J ->
  let t := jwt_encode (claims_at id email T) secret in
  let c := claims_at id email T in
  jwt.verify t secret T = Ok c
  /\ jwt.verify t secret (T + (6 * 24 + 23) * 60 * 60 * 1000) = Ok c
  /\ jwt.verify t secret (T + (7 * 24 * 60 * 60 + 1) * 1000) = Throw expired.
Proof.
  intros HJ t c. unfold t.
  rewrite !(verify_encoded _ _ _ HJ). simpl exp. unfold jwt.seconds_7d.
  repeat split.
  - destruct (Z.leb_spec (T / 1000 + 7 * 24 * 60 * 60) (T / 1000));
      [lia | reflexivity].
  - rewrite Z.div_add by lia.
    destruct (Z.leb_spec (T / 1000 + 7 * 24 * 60 * 60)
                (T / 1000 + (6 * 24 + 23) * 60 * 60));
      [lia | reflexivity].
  - rewrite Z.div_add by lia.
    destruct (Z.leb_spec (T / 1000 + 7 * 24 * 60 * 60)
                (T / 1000 + (7 * 24 * 60 * 60 + 1)));
      [reflexivity | lia].
Qed.

(** C5.  A token that register or login puts in a response at clock time
    [T] (milliseconds; the token counts whole seconds) carries
    [iat = T / 1000] and [exp = iat + 7 days]; verification with the
    issuing implementation's secret accepts it at [T] and at [T] plus 6
    days 23 hours, and rejects it as expired at [T] plus 7 days 1 second.
    The token library is assumed to decode what it encodes. *)
Theorem token_expires_after_seven_days
        (env : Env) (req : Request) (w : World) (t secret : string) :
  jwt_roundtrip J ->
  (secret = Server.JWT_SECRET /\ server_issues env req w t)
  \/ (secret = Controller.JWT_SECRET penv
      /\ controller_issues penv env req w t) ->
  let T := Date_now env in
  exists c,
    jwt.verify t secret T = Ok c
    /\ iat c = (T / 1000)%Z
    /\ exp c = (iat c + 7 * 24 * 60 * 60)%Z
    /\ jwt.verify t secret (T + (6 * 24 + 23) * 60 * 60 * 1000) = Ok c
    /\ jwt.verify t secret (T + (7 * 24 * 60 * 60 + 1) * 1000) = Throw expired.
Proof.
  intros HJ H T.
  assert (E : exists id email, t = jwt_encode (claims_at id email T) secret).
  { destruct H as [[-> H]|[-> H]];
      [apply (server_issues_signed _ _ _ _ H)
      |apply (controller_issues_signed _ _ _ _ H)]. }
  destruct E as (id & email & ->).
  destruct (lifetime id email secret T HJ) as (V0 & V1 & V2).
  exists (claims_at id email T). repeat split; assumption.
Qed.

(** C9.  With [JWT_SECRET] unset in the environment the controller signs
    with ['splito-secret-key-12345'] and server.js with
    ['splito-jwt-secret-key-2024'].  A token that register or login of one
    implementation issues is not verified by the other's secret, and the
    other's profile handler answers 401 with [success: false] to a
    request that carries it.  The token library is assumed not to verify
    under either of these two secrets a token signed with the other. *)
Theorem implementations_reject_each_others_tokens
        (env env' : Env) (req req' : Request) (w w' : World) (t : string) :
  jwt_keys_apart J "splito-jwt-secret-key-2024" "splito-secret-key-12345" ->
  jwt_keys_apart J "splito-secret-key-12345" "splito-jwt-secret-key-2024" ->
  env_JWT_SECRET penv = None ->
  authorization req' = Some ("Bearer " ++ t) ->
  (Controller.JWT_SECRET penv = "splito-secret-key-12345"
   /\ Server.JWT_SECRET = "splito-jwt-secret-key-2024")
  /\ (server_issues env req w t ->
      jwt.verify t (Controller.JWT_SECRET penv) (Date_now env')
      = Throw (jwt.rejected t (Controller.JWT_SECRET penv))
      /\ exists m, fst (Controller.getProfile penv env' req' w')
                   = json 401 [("success", JBool false); ("message", JStr m)])
  /\ (controller_issues penv env req w t ->
      jwt.verify t Server.JWT_SECRET (Date_now env')
      = Throw (jwt.rejected t Server.JWT_SECRET)
      /\ exists m, fst (Server.profile env' req' w')
                   = json 401 [("success", JBool false); ("message", JStr m)]).
Proof.
  intros HJ HJ' Henv Hh.
  assert (Hk : Controller.JWT_SECRET penv = "splito-secret-key-12345")
    by (unfold Controller.JWT_SECRET; rewrite Henv; reflexivity).
  split; [split; [exact Hk | reflexivity]|]. split.
  - intros H. destruct (server_issues_signed _ _ _ _ H) as (id & email & ->).
    assert (V : jwt.verify
                  (jwt_encode (claims_at id email (Date_now env))
                     Server.JWT_SECRET)
                  (Controller.JWT_SECRET penv) (Date_now env')
                = Throw (jwt.rejected
                           (jwt_encode (claims_at id email (Date_now env))
                              Server.JWT_SECRET)
                           (Controller.JWT_SECRET penv))).
    { apply verify_other_key. rewrite Hk. exact HJ. }
    split; [exact V|].
    destruct (Controller.getProfile penv env' req' w') as [r w''] eqn:P.
    expose P. rewrite Hh, remove_first_prefixed in P.
    destruct (JsString.is_empty _); [|rewrite V in P];
      injection P as <- _; eexists; reflexivity.
  - intros H.
    destruct (controller_issues_signed _ _ _ _ H) as (id & email & ->).
    assert (V : jwt.verify
                  (jwt_encode (claims_at id email (Date_now env))
                     (Controller.JWT_SECRET penv))
                  Server.JWT_SECRET (Date_now env')
                = Throw (jwt.rejected
                           (jwt_encode (claims_at id email (Date_now env))
                              (Controller.JWT_SECRET penv))
                           Server.JWT_SECRET)).
    { apply verify_other_key. rewrite Hk. exact HJ'. }
    split; [exact V|].
    destruct (Server.profile env' req' w') as [r w''] eqn:P.
    expose P. rewrite Hh, remove_first_prefixed in P.
    destruct (JsString.is_empty _); [|rewrite V in P];
      injection P as <- _; eexists; reflexivity.
Qed.

(** The catch block of each profile handler answers 401 to whatever its
    body throws. *)
Lemma profile_exception_answers_401 (env : Env) (req : Request) (w : World)
      (e : Exn) :
  (fst (Server.profile_body env req w) = Throw e ->
   fst (Server.profile env req w) = invalid_or_expired)
  /\ (fst (Controller.getProfile_body penv env req w) = Throw e ->
      fst (Controller.getProfile penv env req w) = invalid_or_expired).
Proof.
  unfold Server.profile, Controller.getProfile, try_catch. split; intros H.
  - destruct (Server.profile_body env req w) as [[r|e'] w']; simpl in H;
      [discriminate H | reflexivity].
  - destruct (Controller.getProfile_body penv env req w) as [[r|e'] w'];
      simpl in H; [discriminate H | reflexivity].
Qed.

(** While the store is unreachable, register and login of server.js
    answer a request that passes validation with 500, [success: false],
    their own message and, under [error], what Mongoose rejects the
    buffered [findOne] with; the world is left as it was. *)
Theorem unreachable_store_is_answered_500
        (env : Env) (req : Request) (w : World) (e : string) :
  let password := prop (req_body req) "password" in
  connected w = false ->
  prop (req_body req) "email" = Some (JStr e) -> e <> EmptyString ->
  Js.truthy password = true ->
  (Server.password_too_short password = Ok false ->
   Server.register env req w
   = (server_error "Server error during registration"
        (Server.buffering_timed_out "findOne"), w))
  /\ Server.login env req w
     = (server_error "Server error during login"
          (Server.buffering_timed_out "findOne"), w).
Proof.
  intros password Hc He Hne Ht.
  assert (Hte : Js.truthy (Some (JStr e)) = true)
    by (destruct e; simpl; congruence).
  split.
  - intros Hshort.
    destruct (Server.register env req w) as [r w'] eqn:H.
    cbv beta zeta delta [Server.register Server.register_body try_catch] in H.
    fold password in H. rewrite He, Hte, Ht, Hshort in H.
    cbv beta iota delta [bind lift ret toLowerCase_trim Server.User_findOne
                         negb orb] in H.
    rewrite Hc in H. symmetry. exact H.
  - destruct (Server.login env req w) as [r w'] eqn:H.
    cbv beta zeta delta [Server.login Server.login_body try_catch] in H.
    fold password in H. rewrite He, Hte, Ht in H.
    cbv beta iota delta [bind lift ret toLowerCase_trim Server.User_findOne
                         negb orb] in H.
    rewrite Hc in H. symmetry. exact H.
Qed.

(** Profile in server.js, once a token has been extracted. *)
Lemma server_profile_rejected (env : Env) (req : Request) (w : World)
      (h : string) (e : Exn) :
  authorization req = Some h ->
  JsString.remove_first "Bearer " h <> EmptyString ->
  jwt.verify (JsString.remove_first "Bearer " h) Server.JWT_SECRET
    (Date_now env) = Throw e ->
  Server.profile env req w = (invalid_or_expired, w).
Proof.
  intros Hh Hne Hv.
  destruct (Server.profile env req w) as [r w'] eqn:H.
  expose H. apply is_empty_false in Hne. rewrite Hh, Hne, Hv in H.
  symmetry. exact H.
Qed.

(** Profile in the controller, once a token has been extracted. *)
Lemma controller_profile_rejected (env : Env) (req : Request) (w : World)
      (h : string) (e : Exn) :
  authorization req = Some h ->
  JsString.remove_first "Bearer " h <> EmptyString ->
  jwt.verify (JsString.remove_first "Bearer " h) (Controller.JWT_SECRET penv)
    (Date_now env) = Throw e ->
  Controller.getProfile penv env req w = (invalid_or_expired, w).
Proof.
  intros Hh Hne Hv.
  destruct (Controller.getProfile penv env req w) as [r w'] eqn:H.
  expose H. apply is_empty_false in Hne. rewrite Hh, Hne, Hv in H.
  symmetry. exact H.
Qed.

Lemma controller_profile_verified (env : Env) (req : Request) (w w1 : World)
      (h : string) (c : Claims) (u : UserDoc) :
  authorization req = Some h ->
  JsString.remove_first "Bearer " h <> EmptyString ->
  jwt.verify (JsString.remove_first "Bearer " h) (Controller.JWT_SECRET penv)
    (Date_now env) = Ok c ->
  User_findById (claim_id c) w = (Ok (Some u), w1) ->
  Controller.getProfile penv env req w
  = (json 200 [("success", JBool true); ("data", User_toJSON u)], w1).
Proof.
  intros Hh Hne Hv Hf.
  destruct (Controller.getProfile penv env req w) as [r w'] eqn:H.
  expose H. apply is_empty_false in Hne. rewrite Hh, Hne, Hv, Hf in H.
  symmetry. exact H.
Qed.

(** C7, as amended.  The signing secret is a constant of the program
    unless the environment overrides it, and only the controller reads
    the environment.  server.js signs the tokens it issues, and verifies
    the tokens it is sent, with ['splito-jwt-secret-key-2024'], whatever
    the environment.  The controller signs and verifies with
    [JWT_SECRET] of the environment when that is set and not empty, and
    with ['splito-secret-key-12345'] otherwise.  A token that verifies
    is looked up by the ObjectId its [id] spells; one whose [id] spells
    none is answered as an invalid token. *)
Theorem signing_secret_is_built_in
        (env env' : Env) (req req' : Request) (w w' : World) (t h : string) :
  let server_key := "splito-jwt-secret-key-2024" in
  let default_key := "splito-secret-key-12345" in
  let key := match env_JWT_SECRET penv with
             | Some s => if JsString.is_empty s then default_key else s
             | None => default_key
             end in
  let sent := JsString.remove_first "Bearer " h in
  authorization req' = Some h -> sent <> EmptyString ->
  (server_issues env req w t ->
   exists id email,
     t = jwt_encode (claims_at id email (Date_now env)) server_key)
  /\ (controller_issues penv env req w t ->
      exists id email, t = jwt_encode (claims_at id email (Date_now env)) key)
  /\ (forall e, jwt.verify sent server_key (Date_now env') = Throw e ->
                Server.profile env' req' w' = (invalid_or_expired, w'))
  /\ (forall c id, jwt.verify sent server_key (Date_now env') = Ok c ->
                   cast_ObjectId (claim_id c) = Some id ->
                   connected w' = true ->
                   Server.profile env' req' w'
                   = (match find (by_id id) (users w') with
                      | Some u =>
                          json 200
                            [("success", JBool true);
                             ("data", Server.toJSON_without_password u)]
                      | None => user_not_found
                      end, w'))
  /\ (forall c, jwt.verify sent server_key (Date_now env') = Ok c ->
                cast_ObjectId (claim_id c) = None ->
                Server.profile env' req' w' = (invalid_or_expired, w'))
  /\ (forall e, jwt.verify sent key (Date_now env') = Throw e ->
                Controller.getProfile penv env' req' w'
                = (invalid_or_expired, w'))
  /\ (forall c u w1, jwt.verify sent key (Date_now env') = Ok c ->
                     User_findById (claim_id c) w' = (Ok (Some u), w1) ->
                     Controller.getProfile penv env' req' w'
                     = (json 200 [("success", JBool true);
                                  ("data", User_toJSON u)], w1)).
Proof.
  intros server_key default_key key sent Hh Hne.
  change key with (Controller.JWT_SECRET penv).
  change server_key with Server.JWT_SECRET.
  split; [apply server_issues_signed|].
  split; [apply controller_issues_signed|].
  split; [intros e; apply server_profile_rejected; assumption|].
  split; [intros c id Hv Hid Hc;
          apply (profile_verified env' req' w' h sent c id); trivial|].
  split; [intros c Hv Hid;
          apply (profile_malformed_id env' req' w' h sent c); trivial|].
  split; [intros e; apply controller_profile_rejected; assumption|].
  intros c u w1. apply controller_profile_verified; assumption.
Qed.

(** C3, as amended.  The responses of register, login, profile, the 404
    handler and the global error handler of server.js, and of register,
    login and getProfile of the controller, have a boolean [success], and
    a string [message] whenever [success] is false.  The response of the
    health route has no [success] field. *)
Theorem responses_are_enveloped_except_health
        (ep : Server.Endpoint) (env : Env) (req : Request) (w : World) :
  match ep with
  | Server.Health =>
      field "success" (body (fst (Server.app ep env req w))) = None
  | _ => enveloped (fst (Server.app ep env req w))
  end
  /\ enveloped (fst (Controller.register penv env req w))
  /\ enveloped (fst (Controller.login penv env req w))
  /\ enveloped (fst (Controller.getProfile penv env req w)).
Proof.
  repeat split.
  - destruct ep; [reflexivity| | | | |];
      destruct (Server.app _ env req w) as [r w'] eqn:H;
      cases H; injection H as <- <-;
      (eexists; split; [reflexivity|]; intros Hb;
       first [discriminate Hb | eexists; reflexivity]).
  - destruct (Controller.register penv env req w) as [r w'] eqn:H;
      cases H; injection H as <- <-;
      (eexists; split; [reflexivity|]; intros Hb;
       first [discriminate Hb | eexists; reflexivity]).
  - destruct (Controller.login penv env req w) as [r w'] eqn:H;
      cases H; injection H as <- <-;
      (eexists; split; [reflexivity|]; intros Hb;
       first [discriminate Hb | eexists; reflexivity]).
  - destruct (Controller.getProfile penv env req w) as [r w'] eqn:H;
      cases H; injection H as <- <-;
      (eexists; split; [reflexivity|]; intros Hb;
       first [discriminate Hb | eexists; reflexivity]).
Qed.

Lemma server_no_token (env : Env) (req : Request) (w : World) :
  fst (Server.profile env req w) = no_token_provided "No token provided"
  <-> authorization req = None
      \/ authorization req = Some EmptyString
      \/ authorization req = Some "Bearer ".
Proof.
  split.
  - destruct (Server.profile env req w) as [r w'] eqn:H.
    cases H; injection H as <- <-; simpl; intros E; try discriminate E.
    + match goal with
      | Hs : JsString.is_empty _ = true |- _ =>
          apply is_empty_true, remove_first_nothing in Hs;
          destruct Hs as [-> | ->]; auto
      end.
    + auto.
  - unfold Server.profile, Server.profile_body, try_catch.
    intros [-> | [-> | ->]]; reflexivity.
Qed.

Lemma controller_no_token (env : Env) (req : Request) (w : World) :
  fst (Controller.getProfile penv env req w)
  = no_token_provided "Access denied. No token provided."
  <-> authorization req = None
      \/ authorization req = Some EmptyString
      \/ authorization req = Some "Bearer ".
Proof.
  split.
  - destruct (Controller.getProfile penv env req w) as [r w'] eqn:H.
    cases H; injection H as <- <-; simpl; intros E; try discriminate E.
    + match goal with
      | Hs : JsString.is_empty _ = true |- _ =>
          apply is_empty_true, remove_first_nothing in Hs;
          destruct Hs as [-> | ->]; auto
      end.
    + auto.
  - unfold Controller.getProfile, Controller.getProfile_body, try_catch.
    intros [-> | [-> | ->]]; reflexivity.
Qed.

(** A token that verifies is what extraction returns, with and without
    the scheme in front of it. *)
Lemma extraction_of_verified (t secret : string) (now : Z) (c : Claims) :
  jwt_compact J -> jwt.verify t secret now = Ok c ->
  JsString.remove_first "Bearer " t = t
  /\ JsString.remove_first "Bearer " ("Bearer " ++ t) = t
  /\ t <> EmptyString.
Proof.
  intros HC Hv. destruct (verified_is_compact _ _ _ _ HC Hv) as [Hc Hne].
  split; [|split; [apply remove_first_prefixed | exact Hne]].
  apply remove_first_absent, compact_no_Bearer, Hc.
Qed.

Lemma received_no_token (req : Request) :
  received req ->
  (authorization req = None
   \/ authorization req = Some EmptyString
   \/ authorization req = Some "Bearer ")
  <-> authorization req = None \/ authorization req = Some EmptyString.
Proof.
  intros Hr. split; [|tauto].
  intros [H | [H | H]]; auto.
  apply Hr in H. discriminate H.
Qed.

(** C10.  Profile does not require the scheme: extraction removes the
    first ['Bearer '] of the Authorization header, so a request whose
    header is exactly a token [t] that verifies is answered as the
    request whose header is ['Bearer ' ++ t], with 200 and the user when
    the store returns the user the token names.  Of the requests the
    server receives, whose header values carry no whitespace at either
    end, only one without the header or with an empty one is answered
    with the no-token 401.  Tokens that verify are assumed to be compact
    (base64url characters and dots). *)
Theorem bearer_scheme_is_optional
        (env : Env) (req1 req2 : Request) (w : World) (t : string)
        (c : Claims) :
  jwt_compact J ->
  authorization req1 = Some t ->
  authorization req2 = Some ("Bearer " ++ t) ->
  (jwt.verify t Server.JWT_SECRET (Date_now env) = Ok c ->
   Server.profile env req1 w = Server.profile env req2 w
   /\ forall id u, connected w = true ->
                   cast_ObjectId (claim_id c) = Some id ->
                   find (by_id id) (users w) = Some u ->
                   fst (Server.profile env req1 w)
                   = json 200 [("success", JBool true);
                               ("data", Server.toJSON_without_password u)])
  /\ (jwt.verify t (Controller.JWT_SECRET penv) (Date_now env) = Ok c ->
      Controller.getProfile penv env req1 w
      = Controller.getProfile penv env req2 w
      /\ forall u w1, User_findById (claim_id c) w = (Ok (Some u), w1) ->
                      fst (Controller.getProfile penv env req1 w)
                      = json 200 [("success", JBool true);
                                  ("data", User_toJSON u)])
  /\ (forall req,
        received req ->
        fst (Server.profile env req w) = no_token_provided "No token provided"
        <-> authorization req = None \/ authorization req = Some EmptyString)
  /\ (forall req,
        received req ->
        fst (Controller.getProfile penv env req w)
        = no_token_provided "Access denied. No token provided."
        <-> authorization req = None \/ authorization req = Some EmptyString).
Proof.
  intros HC H1 H2.
  split; [|split; [|split;
    [intros req Hr; rewrite <- (received_no_token req Hr);
     apply server_no_token
    |intros req Hr; rewrite <- (received_no_token req Hr);
     apply controller_no_token]]].
  - intros Hv.
    destruct (extraction_of_verified _ _ _ _ HC Hv) as (E1 & E2 & Hne).
    split.
    + destruct (Server.profile env req1 w) as [r1 w1] eqn:P1.
      destruct (Server.profile env req2 w) as [r2 w2] eqn:P2.
      expose P1. expose P2. rewrite H1, E1 in P1. rewrite H2, E2 in P2.
      congruence.
    + intros id u Hc Hid Hf.
      rewrite (profile_verified env req1 w t t c id H1 E1 Hne Hv Hid Hc), Hf.
      reflexivity.
  - intros Hv.
    destruct (extraction_of_verified _ _ _ _ HC Hv) as (E1 & E2 & Hne).
    split.
    + destruct (Controller.getProfile penv env req1 w) as [r1 w1] eqn:P1.
      destruct (Controller.getProfile penv env req2 w) as [r2 w2] eqn:P2.
      expose P1. expose P2. rewrite H1, E1 in P1. rewrite H2, E2 in P2.
      congruence.
    + intros u w1 Hf.
      rewrite (controller_profile_verified env req1 w w1 t c u H1); trivial;
        rewrite E1; assumption.
Qed.

(** Register with a string email that is not empty once normalized and
    is not yet stored, a string password of at least 6 characters, a
    fresh id and a reachable store, is answered 201 with the user and a
    token, and appends exactly one document, whose email is the
    normalized email.  The hash of a password is assumed not to be
    empty. *)
Theorem register_fresh_email_succeeds
        (env : Env) (req : Request) (w : World) (e p : string) :
  prop (req_body req) "email" = Some (JStr e) ->
  prop (req_body req) "password" = Some (JStr p) ->
  6 <= String.length p ->
  normalize e <> EmptyString ->
  hashpw p 10 (genSalt env) <> EmptyString ->
  connected w = true ->
  find (by_email e) (users w) = None ->
  existsb (fun u => ObjectId_eqb (user_id u) (new_ObjectId env)) (users w)
  = false ->
  let u := registered env e p in
  Server.register env req w
  = (created_response u (token_for u Server.JWT_SECRET (Date_now env)),
     {| users := (users w ++ [u])%list; connected := true |})
  /\ user_email u = normalize e.
Proof.
  intros He Hp Hlen Hne Hh Hc Hf Hid u.
  split; [|apply email_setters_normalize].
  assert (Hte : Js.truthy (Some (JStr e)) = true).
  { destruct e; [exfalso; apply Hne; reflexivity | reflexivity]. }
  assert (Htp : Js.truthy (Some (JStr p)) = true)
    by (destruct p; simpl in *; [lia | reflexivity]).
  assert (Hl : Js.length_lt (JStr p) 6 = Some false)
    by (simpl; f_equal; apply Nat.ltb_ge, Hlen).
  assert (Hr1 : Server.required (user_email u) = true).
  { unfold u, registered. simpl. rewrite email_setters_normalize.
    apply negb_true_iff, is_empty_false, Hne. }
  assert (Hr2 : Server.required (user_password u) = true).
  { unfold u, registered. simpl. apply negb_true_iff, is_empty_false, Hh. }
  assert (Hk : existsb (Server.same_key u) (users w) = false).
  { clear - Hf Hid. unfold by_email in Hf.
    induction (users w) as [|x l IH]; [reflexivity|].
    simpl in Hf, Hid |- *.
    apply orb_false_iff in Hid. destruct Hid as [Hx Hl].
    destruct (String.eqb (user_email x) (Server.email_setters (normalize e)))
      eqn:Ex; [discriminate|].
    rewrite (IH Hf Hl), orb_false_r. unfold Server.same_key.
    unfold u, registered. simpl.
    rewrite (ObjectId_eqb_sym (new_ObjectId env)), Hx.
    rewrite String.eqb_sym. exact Ex. }
  destruct (Server.register env req w) as [r w'] eqn:H.
  unfold by_email, normalize in Hf.
  expose H. rewrite He, Hp, Hte, Htp, Hl in H. reduce H.
  rewrite Hc, Hf in H. reduce H.
  fold (normalize e) in H. fold (registered env e p) in H. fold u in H.
  rewrite Hr1, Hr2, Hk in H. reduce H. rewrite Hc in H. reduce H.
  rewrite sign_nonempty_secret in H by discriminate.
  rewrite <- H. reflexivity.
Qed.

End Claims.

(** * The claims on concrete requests *)

Module Examples.
Import Sample SampleFacts Scenario.

(** A register request whose password has three characters is refused
    by both implementations, and nothing is stored. *)
Lemma register_rejects_invalid_input_witness :
  let req := credentials "a@test.com" "abc" in
  shorter_than 6 (prop (req_body req) "password")
  /\ (validation_error ["Email and password are required";
                        "Password must be at least 6 characters"]
        (fst (Server.register env1 req w0))
      /\ snd (Server.register env1 req w0) = w0)
  /\ (validation_error ["Please provide email and password";
                        "Password must be at least 6 characters"]
        (fst (Controller.register unset env1 req w0))
      /\ snd (Controller.register unset env1 req w0) = w0).
Proof.
  assert (H : shorter_than 6
                (prop (req_body (credentials "a@test.com" "abc")) "password")).
  { left. exists "abc". split; [reflexivity | simpl; lia]. }
  split; [exact H|].
  apply (register_rejects_invalid_input unset env1
           (credentials "a@test.com" "abc") w0).
  right. right. exact H.
Defined.

(** A login with a wrong password after [alice] registered, and the same
    login on the empty store. *)
Lemma login_failures_are_indistinguishable_witness :
  let req := credentials "a@test.com" "wrong-password" in
  fst (Server.login env2 req w0) = invalid_credentials
  /\ fst (Server.login env2 req w1) = fst (Server.login env2 req w0)
  /\ fst (Controller.login unset env2 req w0) = invalid_credentials
  /\ fst (Controller.login unset env2 req w1)
     = fst (Controller.login unset env2 req w0).
Proof.
  destruct (login_failures_are_indistinguishable unset env2
              (credentials "a@test.com" "wrong-password") "a@test.com"
              alice_doc w0 w1 w0 w1)
    as [S C]; try reflexivity; [discriminate|].
  destruct S as [S1 S2]; try reflexivity.
  destruct C as [C1 C2]; try reflexivity.
  repeat split; assumption.
Defined.

(** C4, the failing input.  After [alice] has registered, a login whose
    password is the number 123456 is answered 500 when the email is hers:
    [bcrypt.compare] rejects a password that is not a string; and 401
    when the email is not registered.  The two failures differ, so the
    answer tells whether an email is registered. *)
Lemma login_number_password_tells_registered_email :
  let login_as email :=
    {| authorization := None;
       req_body := [("email", JStr email);
                    ("password", JNum 123456%float)] |} in
  Server.login env2 (login_as "b@test.com") w1 = (invalid_credentials, w1)
  /\ Server.login env2 (login_as "a@test.com") w1
     = (json 500 [("success", JBool false);
                  ("message", JStr "Server error during login");
                  ("error", JStr "Illegal arguments: number, string")], w1)
  /\ status (fst (Server.login env2 (login_as "a@test.com") w1))
     <> status (fst (Server.login env2 (login_as "b@test.com") w1)).
Proof.
  split; [vm_compute; reflexivity|].
  split; [vm_compute; reflexivity|].
  vm_compute. discriminate.
Qed.

(** [alice] registers, then the next request registers her again under
    another spelling of the email; to server.js, and to the controller
    over the modelled User model. *)
Lemma second_registration_is_refused_witness :
  let again := credentials " a@TEST.com" "abcdef" in
  normalize " a@TEST.com" = normalize "A@Test.com "
  /\ status (fst (Server.register env1 alice w0)) = 201
  /\ Server.register env2 again w1 = (already_exists, w1)
  /\ status (fst (Controller.register unset env1 alice w0)) = 201
  /\ Controller.register unset env2 again
       (snd (Controller.register unset env1 alice w0))
     = (already_exists, snd (Controller.register unset env1 alice w0)).
Proof.
  assert (Hne : " a@TEST.com" <> EmptyString) by discriminate.
  destruct (second_registration_is_refused unset env1 env2 alice
              (credentials " a@TEST.com" "abcdef") w0
              "A@Test.com " " a@TEST.com" eq_refl eq_refl Hne eq_refl eq_refl)
    as [S C].
  split; [reflexivity|]. split; [reflexivity|].
  split; [exact (S eq_refl eq_refl)|]. split; [reflexivity|].
  exact (C model_finds_created_law eq_refl eq_refl).
Defined.

(** [alice] registers, then registers again under another spelling of the
    email and with a valid password. *)
Lemma register_same_email_again_witness :
  let again := credentials " a@TEST.com" "abcdef" in
  status (fst (Server.register env1 alice w0)) = 201
  /\ normalize " a@TEST.com" = normalize "A@Test.com "
  /\ Server.register env2 again w1 = (already_exists, w1).
Proof.
  split; [reflexivity | split; [reflexivity|]].
  apply (register_same_email_again env1 env2 alice
           (credentials " a@TEST.com" "abcdef") w0 w1
           "A@Test.com " " a@TEST.com" "abcdef");
    try reflexivity.
  apply reach_refl.
Defined.

(** [alice] registers and logs in with the same credentials. *)
Lemma login_after_register_witness :
  exists u t c,
    fst (Server.register env1 alice w0)
    = created_response u (token_for u Server.JWT_SECRET (Date_now env1))
    /\ user_email u = normalize "A@Test.com "
    /\ Server.login env2 alice w1 = (logged_in_response u t, w1)
    /\ jwt.verify t Server.JWT_SECRET (Date_now env2) = Ok c
    /\ claim_id c = toHexString (user_id u)
    /\ forall env3 req3 w3,
         Reach w1 w3 -> connected w3 = true ->
         authorization req3 = Some ("Bearer " ++ t) ->
         (Date_now env3 / 1000 < exp c)%Z ->
         Server.profile env3 req3 w3
         = (json 200 [("success", JBool true);
                      ("data", Server.toJSON_without_password u)], w3).
Proof.
  apply (login_after_register env1 env2 alice alice w0 w1
           "A@Test.com " "secret1");
    try reflexivity.
  - exact bcrypt_law.
  - exact jwt_roundtrip_law.
  - exact jwt_compact_law.
  - apply reach_refl.
Defined.

(** The token of the login of [alice]. *)
Lemma token_expires_after_seven_days_witness :
  server_issues env2 alice w1 alice_token
  /\ exists c,
       jwt.verify alice_token Server.JWT_SECRET 9000 = Ok c
       /\ iat c = 9%Z
       /\ exp c = (9 + 7 * 24 * 60 * 60)%Z
       /\ jwt.verify alice_token Server.JWT_SECRET
            (9000 + (6 * 24 + 23) * 60 * 60 * 1000) = Ok c
       /\ jwt.verify alice_token Server.JWT_SECRET
            (9000 + (7 * 24 * 60 * 60 + 1) * 1000) = Throw expired.
Proof.
  assert (H : server_issues env2 alice w1 alice_token)
    by (right; reflexivity).
  split; [exact H|].
  destruct (token_expires_after_seven_days unset env2 alice w1 alice_token
              Server.JWT_SECRET jwt_roundtrip_law
              (or_introl (conj eq_refl H)))
    as (c & V & I & E & V1 & V2).
  exists c. rewrite E, I. repeat split; assumption.
Defined.

(** The token of the login of [alice], sent to the controller. *)
Lemma implementations_reject_each_others_tokens_witness :
  server_issues env2 alice w1 alice_token
  /\ jwt.verify alice_token (Controller.JWT_SECRET unset) 9000
     = Throw {| name := JsonWebTokenError; message := "invalid signature" |}
  /\ exists m,
       fst (Controller.getProfile unset env2
              (bearer (Some ("Bearer " ++ alice_token))) w1)
       = json 401 [("success", JBool false); ("message", JStr m)].
Proof.
  assert (H : server_issues env2 alice w1 alice_token)
    by (right; reflexivity).
  assert (Hk : "splito-jwt-secret-key-2024" <> "splito-secret-key-12345")
    by discriminate.
  assert (Hk' : "splito-secret-key-12345" <> "splito-jwt-secret-key-2024")
    by discriminate.
  split; [exact H|].
  destruct (implementations_reject_each_others_tokens unset env2 env2 alice
              (bearer (Some ("Bearer " ++ alice_token))) w1 w1 alice_token
              (jwt_keys_apart_law _ _ Hk) (jwt_keys_apart_law _ _ Hk')
              eq_refl eq_refl)
    as (_ & S & _).
  exact (S H).
Defined.

(** C7, counterexample.  With no secret in the environment both
    implementations have a secret, a constant of the source, and the
    controller signs a token with it. *)
Lemma secret_defaults_when_unconfigured :
  Controller.JWT_SECRET unset = "splito-secret-key-12345"
  /\ Server.JWT_SECRET = "splito-jwt-secret-key-2024"
  /\ Controller.generateToken unset (toHexString (oid x01)) "a@test.com" 5000
     = Ok (jwt_encode (claims_at (toHexString (oid x01)) "a@test.com" 5000)
             "splito-secret-key-12345")
  /\ jwt.verify (jwt_encode
                   (claims_at (toHexString (oid x01)) "a@test.com" 5000)
                   "splito-secret-key-12345")
       "splito-secret-key-12345" 5000
     = Ok (claims_at (toHexString (oid x01)) "a@test.com" 5000).
Proof. repeat split; reflexivity. Qed.

(** The login of [alice], and her token sent back. *)
Lemma signing_secret_is_built_in_witness :
  server_issues env2 alice w1 alice_token
  /\ exists id email,
       alice_token = jwt_encode (claims_at id email (Date_now env2))
                       "splito-jwt-secret-key-2024".
Proof.
  assert (H : server_issues env2 alice w1 alice_token)
    by (right; reflexivity).
  split; [exact H|].
  assert (Hne : JsString.remove_first "Bearer " ("Bearer " ++ alice_token)
                <> EmptyString) by discriminate.
  destruct (signing_secret_is_built_in unset env2 env2 alice
              (bearer (Some ("Bearer " ++ alice_token))) w1 w1 alice_token
              ("Bearer " ++ alice_token) eq_refl Hne)
    as (S & _).
  exact (S H).
Defined.

(** C3, counterexample.  The health response has no [success] field. *)
Lemma health_is_not_enveloped :
  ~ enveloped (fst (Server.health env1 (bearer None) w0)).
Proof. intros (b & H & _). discriminate H. Qed.

(** The token of [alice] with and without the scheme, and a request with
    an empty header. *)
Lemma bearer_scheme_is_optional_witness :
  jwt.verify alice_token Server.JWT_SECRET (Date_now env2)
  = Ok (claims_at (toHexString (oid x01)) "a@test.com" 9000)
  /\ Server.profile env2 (bearer (Some alice_token)) w1
     = Server.profile env2 (bearer (Some ("Bearer " ++ alice_token))) w1
  /\ fst (Server.profile env2 (bearer (Some alice_token)) w1)
     = json 200 [("success", JBool true);
                 ("data", Server.toJSON_without_password alice_doc)]
  /\ received (bearer (Some EmptyString))
  /\ fst (Server.profile env2 (bearer (Some EmptyString)) w1)
     = no_token_provided "No token provided".
Proof.
  assert (V : jwt.verify alice_token Server.JWT_SECRET (Date_now env2)
              = Ok (claims_at (toHexString (oid x01)) "a@test.com" 9000))
    by reflexivity.
  assert (Hr : received (bearer (Some EmptyString))).
  { intros h Hh. injection Hh as <-. reflexivity. }
  split; [exact V|].
  destruct (bearer_scheme_is_optional unset env2 (bearer (Some alice_token))
              (bearer (Some ("Bearer " ++ alice_token))) w1 alice_token
              (claims_at (toHexString (oid x01)) "a@test.com" 9000)
              jwt_compact_law eq_refl eq_refl)
    as (S & _ & N & _).
  destruct (S V) as [E F].
  split; [exact E|].
  split; [apply (F (oid x01)); reflexivity|].
  split; [exact Hr|].
  apply (N (bearer (Some EmptyString)) Hr). right. reflexivity.
Defined.

(** C2, the failing input.  [alice] sends her valid token while the
    store is unreachable: the lookup of the user throws, and the profile
    handler answers 401 ['Invalid or expired token'], not 500. *)
Lemma profile_store_unreachable_answers_401 :
  let down := {| users := users w1; connected := false |} in
  let req := bearer (Some ("Bearer " ++ alice_token)) in
  jwt.verify alice_token Server.JWT_SECRET (Date_now env2)
  = Ok (claims_at (toHexString (oid x01)) "a@test.com" 9000)
  /\ fst (Server.profile_body env2 req down)
     = Throw (Server.buffering_timed_out "findOne")
  /\ fst (Server.profile env2 req down) = invalid_or_expired
  /\ status (fst (Server.profile env2 req down)) = 401
  /\ status (fst (Server.login env2 alice down)) = 500
  /\ status (fst (Server.register env2 alice down)) = 500.
Proof. repeat split; reflexivity. Qed.

(** [alice] registers on the empty store. *)
Lemma register_fresh_email_succeeds_witness :
  let u := registered env1 "A@Test.com " "secret1" in
  Server.register env1 alice w0
  = (created_response u (token_for u Server.JWT_SECRET (Date_now env1)),
     {| users := [u]; connected := true |})
  /\ user_email u = "a@test.com".
Proof.
  apply (register_fresh_email_succeeds env1 alice w0 "A@Test.com " "secret1");
    try reflexivity; try discriminate.
  simpl. lia.
Defined.

(** [alice] registers, and logs in, while the store is unreachable. *)
Lemma unreachable_store_is_answered_500_witness :
  let down := {| users := []; connected := false |} in
  Server.register env1 alice down
  = (json 500 [("success", JBool false);
               ("message", JStr "Server error during registration");
               ("error",
                 JStr "Operation `users.findOne()` buffering timed out after 10000ms")],
     down)
  /\ Server.login env1 alice down
     = (json 500 [("success", JBool false);
                  ("message", JStr "Server error during login");
                  ("error",
                    JStr "Operation `users.findOne()` buffering timed out after 10000ms")],
        down).
Proof.
  assert (Hne : "A@Test.com " <> EmptyString) by discriminate.
  destruct (unreachable_store_is_answered_500 env1 alice
              {| users := []; connected := false |} "A@Test.com "
              eq_refl eq_refl Hne eq_refl) as [Hr Hl].
  split; [exact (Hr eq_refl) | exact Hl].
Defined.

End Examples.

(** * Further properties of the handlers *)

Section Properties.
Context {R : JsRuntime} {B : Bcrypt} {J : Jwt} {U : UserModel}.
Variable penv : ProcessEnv.

(** ** What a request does to the store *)

(** Every outcome of register: the world as it was, or the one document
    of a 201. *)
Lemma register_effect (env : Env) (req : Request) (w w1 : World)
      (r : Response) :
  Server.register env req w = (r, w1) ->
  (status r <> 201 /\ w1 = w)
  \/ exists e p,
       prop (req_body req) "email" = Some (JStr e)
       /\ prop (req_body req) "password" = Some (JStr p)
       /\ 6 <= String.length p
       /\ connected w = true
       /\ find (by_email e) (users w) = None
       /\ existsb (Server.same_key (registered env e p)) (users w) = false
       /\ user_email (registered env e p) <> EmptyString
       /\ user_password (registered env e p) <> EmptyString
       /\ w1 = {| users := (users w ++ [registered env e p])%list;
                  connected := true |}
       /\ r = created_response (registered env e p)
                (token_for (registered env e p) Server.JWT_SECRET
                   (Date_now env)).
Proof.
  intros H. cases H;
    try (injection H as <- <-; left; split;
         [simpl; discriminate | reflexivity]).
  all: try match goal with
           | Hsign : jwt.sign _ _ _ _ _ = Throw _ |- _ =>
               rewrite sign_nonempty_secret in Hsign by discriminate;
               discriminate Hsign
           end.
  right.
  match goal with
  | He : prop _ "email" = Some (JStr ?e),
    Hp : prop _ "password" = Some (JStr ?p) |- _ => exists e, p
  end.
  match goal with
  | Hsign : jwt.sign _ _ _ _ _ = Ok _ |- _ =>
      rewrite sign_nonempty_secret in Hsign by discriminate;
      injection Hsign as <-
  end.
  match goal with
  | Hreq : negb (Server.required _ && _) = false |- _ =>
      apply negb_false_iff, andb_true_iff in Hreq;
      destruct Hreq as [Hreq1 Hreq2];
      apply negb_true_iff, is_empty_false in Hreq1;
      apply negb_true_iff, is_empty_false in Hreq2
  end.
  match goal with
  | Hlen : Js.length_lt _ _ = Some false |- _ =>
      simpl in Hlen; injection Hlen as Hlen; apply Nat.ltb_ge in Hlen
  end.
  injection H as <- <-.
  unfold registered, normalize.
  repeat split; trivial; congruence.
Qed.

(** Login, profile, health, the 404 handler and the error handler of
    server.js leave the world as it is, whatever they answer. *)
Theorem only_register_writes
        (ep : Server.Endpoint) (env : Env) (req : Request) (w : World) :
  match ep with
  | Server.Register => True
  | _ => snd (Server.app ep env req w) = w
  end.
Proof.
  destruct ep; [| exact I | | | |];
    destruct (Server.app _ env req w) as [r w'] eqn:H;
    cases H; injection H as <- <-; reflexivity.
Qed.

(** Register changes the world only when it answers 201, and then it
    appends one document: the normalized email, the bcrypt hash of the
    password at cost 10, never the password itself as sent, the new id
    and the clock.  It answers 201 only to a string email, a string
    password of at least 6 characters, on a reachable store that holds no
    document with that normalized email. *)
Theorem register_writes_only_on_201
        (env : Env) (req : Request) (w : World) :
  let r := fst (Server.register env req w) in
  let w1 := snd (Server.register env req w) in
  (status r <> 201 /\ w1 = w)
  \/ exists e p,
       status r = 201
       /\ prop (req_body req) "email" = Some (JStr e)
       /\ prop (req_body req) "password" = Some (JStr p)
       /\ 6 <= String.length p
       /\ connected w = true
       /\ find (fun u => String.eqb (user_email u) (normalize e)) (users w)
          = None
       /\ w1 = {| users := (users w ++
                              [{| user_id := new_ObjectId env;
                                  user_email := normalize e;
                                  user_password := hashpw p 10 (genSalt env);
                                  user_createdAt := Date_now env |}])%list;
                  connected := true |}.
Proof.
  intros r w1. unfold r, w1.
  destruct (Server.register env req w) as [r' w'] eqn:H. simpl.
  destruct (register_effect env req w w' r' H)
    as [L | (e & p & He & Hp & Hlen & Hc & Hf & _ & _ & _ & -> & ->)];
    [left; exact L | right].
  exists e, p. unfold by_email in Hf. rewrite email_setters_normalize in Hf.
  repeat split; trivial.
  unfold registered, Server.new_User. rewrite email_setters_normalize.
  reflexivity.
Qed.

(** The status codes of each route of server.js and of each handler of
    the controller: register answers 201, 400 or 500; login 200, 400, 401
    or 500; profile 200, 401 or 404, and never 500. *)
Theorem handlers_answer_known_statuses
        (ep : Server.Endpoint) (env : Env) (req : Request) (w : World) :
  In (status (fst (Server.app ep env req w))) (statuses ep)
  /\ In (status (fst (Controller.register penv env req w))) [201; 400; 500]
  /\ In (status (fst (Controller.login penv env req w))) [200; 400; 401; 500]
  /\ In (status (fst (Controller.getProfile penv env req w))) [200; 401; 404].
Proof.
  repeat split.
  - destruct ep;
      destruct (Server.app _ env req w) as [r w'] eqn:H;
      cases H; injection H as <- <-; simpl; auto 6.
  - destruct (Controller.register penv env req w) as [r w'] eqn:H;
      cases H; injection H as <- <-; simpl; auto 6.
  - destruct (Controller.login penv env req w) as [r w'] eqn:H;
      cases H; injection H as <- <-; simpl; auto 6.
  - destruct (Controller.getProfile penv env req w) as [r w'] eqn:H;
      cases H; injection H as <- <-; simpl; auto 6.
Qed.

(** A register or login request whose email or password is falsy
    (absent, [null], [false], [0] or the empty string) is answered 400
    with the message that both are required, before the store or the
    User model is touched; login has no other validation. *)
Theorem falsy_credentials_are_rejected
        (env : Env) (req : Request) (w : World) :
  Js.truthy (prop (req_body req) "email") = false
  \/ Js.truthy (prop (req_body req) "password") = false ->
  Server.register env req w
  = (credentials_required "Email and password are required", w)
  /\ Server.login env req w
     = (credentials_required "Email and password are required", w)
  /\ Controller.register penv env req w
     = (credentials_required "Please provide email and password", w)
  /\ Controller.login penv env req w
     = (credentials_required "Please provide email and password", w).
Proof.
  intros H.
  assert (V : negb (Js.truthy (prop (req_body req) "email"))
              || negb (Js.truthy (prop (req_body req) "password")) = true).
  { destruct H as [-> | ->]; [reflexivity | apply orb_true_r]. }
  unfold Server.register, Server.register_body, Server.login,
    Server.login_body, Controller.register, Controller.register_body,
    Controller.login, Controller.login_body, try_catch.
  cbv zeta. rewrite V. repeat split; reflexivity.
Qed.

(** Every request leaves the world as it was or appends the one document
    of a successful registration. *)
Lemma app_effect (ep : Server.Endpoint) (env : Env) (req : Request)
      (w : World) :
  snd (Server.app ep env req w) = w
  \/ exists e p,
       existsb (Server.same_key (registered env e p)) (users w) = false
       /\ user_email (registered env e p) <> EmptyString
       /\ user_password (registered env e p) <> EmptyString
       /\ snd (Server.app ep env req w)
          = {| users := (users w ++ [registered env e p])%list;
               connected := true |}.
Proof.
  destruct ep;
    try (left; destruct (Server.app _ env req w) as [r w'] eqn:H;
         cases H; injection H as <- <-; reflexivity).
  simpl. destruct (Server.register env req w) as [r w'] eqn:H. simpl.
  destruct (register_effect env req w w' r H)
    as [[_ ->] | (e & p & _ & _ & _ & _ & _ & Hk & He & Hp & -> & _)];
    [left; reflexivity | right].
  exists e, p. repeat split; assumption.
Qed.

Lemma same_key_fresh (u : UserDoc) (l : list UserDoc) :
  existsb (Server.same_key u) l = false ->
  ~ In (user_email u) (map user_email l)
  /\ ~ In (user_id u) (map user_id l).
Proof.
  induction l as [|x l IH]; simpl; [tauto|].
  intros H. apply orb_false_iff in H. destruct H as [Hx Hl].
  unfold Server.same_key in Hx. apply orb_false_iff in Hx.
  destruct Hx as [Hi He].
  apply ObjectId_eqb_neq in Hi. apply String.eqb_neq in He.
  destruct (IH Hl) as [IHe IHi].
  split; intros [E | E]; auto.
Qed.

Lemma NoDup_map_snoc {A K} (f : A -> K) (l : list A) (a : A) :
  NoDup (map f l) -> ~ In (f a) (map f l) -> NoDup (map f (l ++ [a])).
Proof.
  induction l as [|x l IH]; simpl; intros Hn Hf.
  - constructor; [intros [] | constructor].
  - inversion Hn as [|y l' Hx Hl]; subst. constructor.
    + rewrite map_app, in_app_iff. simpl. intros [E | [E | []]].
      * exact (Hx E).
      * apply Hf. left. symmetry. exact E.
    + apply IH; [exact Hl | intros E; apply Hf; right; exact E].
Qed.

(** The store keeps its shape: once every stored email is lowercased,
    trimmed, not empty and held by one document only, every id is held by
    one document only and no stored password is empty, this stays so
    after any requests and connection changes.  It is so of the empty
    collection. *)
Theorem store_stays_well_formed (w w' : World) :
  store_ok w -> Reach w w' -> store_ok w'.
Proof.
  intros Hw Hr. induction Hr as [|w1 ep env req _ IH|w1 b _ IH];
    [exact Hw | | exact IH].
  destruct (app_effect ep env req w1)
    as [-> | (e & p & Hk & He & Hp & ->)]; [exact IH|].
  destruct IH as (Ne & Ni & Fw).
  destruct (same_key_fresh _ _ Hk) as [Fe Fi].
  unfold store_ok. simpl users. repeat split.
  - apply NoDup_map_snoc; assumption.
  - apply NoDup_map_snoc; assumption.
  - apply Forall_app. split; [exact Fw|]. constructor; [|constructor].
    repeat split; [|exact He | exact Hp].
    unfold registered, Server.new_User. simpl.
    rewrite !email_setters_normalize. reflexivity.
Qed.

(** No request removes or changes a stored document: a document of the
    collection is still in it later, the lookup that found it finds it,
    and the collection never shrinks. *)
Theorem documents_are_never_removed (w w' : World) :
  Reach w w' ->
  (forall u, In u (users w) -> In u (users w'))
  /\ (forall f u, find f (users w) = Some u -> find f (users w') = Some u)
  /\ List.length (users w) <= List.length (users w').
Proof.
  intros Hr. destruct (reach_grows _ _ Hr) as [l E]. rewrite E.
  repeat split.
  - intros u Hu. apply in_or_app. left. exact Hu.
  - intros f u Hf. apply find_app_some, Hf.
  - rewrite length_app. lia.
Qed.

(** The spelling of the email does not matter: two requests whose emails
    are not empty and normalize (lowercase, trim) to one string, with one
    password, get one answer and leave one world, from register and login
    of server.js and from login of the controller. *)
Theorem email_spelling_does_not_matter
        (env : Env) (req1 req2 : Request) (w : World) (e1 e2 : string) :
  prop (req_body req1) "email" = Some (JStr e1) -> e1 <> EmptyString ->
  prop (req_body req2) "email" = Some (JStr e2) -> e2 <> EmptyString ->
  normalize e1 = normalize e2 ->
  prop (req_body req1) "password" = prop (req_body req2) "password" ->
  Server.register env req1 w = Server.register env req2 w
  /\ Server.login env req1 w = Server.login env req2 w
  /\ Controller.login penv env req1 w = Controller.login penv env req2 w.
Proof.
  intros He1 Hn1 He2 Hn2 Hn Hp.
  assert (T1 : Js.truthy (Some (JStr e1)) = true)
    by (destruct e1; simpl; congruence).
  assert (T2 : Js.truthy (Some (JStr e2)) = true)
    by (destruct e2; simpl; congruence).
  unfold normalize in Hn.
  repeat split.
  - destruct (Server.register env req1 w) as [r1 w1] eqn:H1.
    destruct (Server.register env req2 w) as [r2 w2] eqn:H2.
    expose H1. expose H2.
    rewrite He1, T1, Hp, Hn in H1. rewrite He2, T2 in H2. congruence.
  - destruct (Server.login env req1 w) as [r1 w1] eqn:H1.
    destruct (Server.login env req2 w) as [r2 w2] eqn:H2.
    expose H1. expose H2.
    rewrite He1, T1, Hp, Hn in H1. rewrite He2, T2 in H2. congruence.
  - destruct (Controller.login penv env req1 w) as [r1 w1] eqn:H1.
    destruct (Controller.login penv env req2 w) as [r2 w2] eqn:H2.
    expose H1. expose H2.
    rewrite He1, T1, Hp, Hn in H1. rewrite He2, T2 in H2. congruence.
Qed.

(** The validity window of an issued token is closed below nothing and
    open above at exactly 7 days: a token that register or login issued
    at clock [T] verifies at every clock whose whole seconds are below
    those of [T] plus 604800, also before [T], and is expired at every
    other clock, so at [T] plus 7 days sharp. *)
Theorem token_window_ends_at_seven_days
        (env : Env) (req : Request) (w : World) (t secret : string)
        (now : Z) :
  jwt_roundtrip J ->
  (secret = Server.JWT_SECRET /\ server_issues env req w t)
  \/ (secret = Controller.JWT_SECRET penv
      /\ controller_issues penv env req w t) ->
  let T := Date_now env in
  ((now / 1000 < T / 1000 + 604800)%Z ->
   exists c, jwt.verify t secret now = Ok c)
  /\ ((T / 1000 + 604800 <= now / 1000)%Z ->
      jwt.verify t secret now = Throw expired)
  /\ jwt.verify t secret (T + 7 * 24 * 60 * 60 * 1000) = Throw expired.
Proof.
  intros HJ H T.
  assert (E : exists id email, t = jwt_encode (claims_at id email T) secret).
  { destruct H as [[-> H]|[-> H]];
      [apply (server_issues_signed _ _ _ _ H)
      |apply (controller_issues_signed _ _ _ _ _ H)]. }
  destruct E as (id & email & ->).
  assert (V : forall n, jwt.verify (jwt_encode (claims_at id email T) secret)
                          secret n
                        = if (T / 1000 + 604800 <=? n / 1000)%Z
                          then Throw expired
                          else Ok (claims_at id email T)).
  { intros n. rewrite (verify_encoded _ _ _ HJ). reflexivity. }
  repeat split.
  - intros L. rewrite V.
    destruct (Z.leb_spec (T / 1000 + 604800) (now / 1000)); [lia|].
    eexists. reflexivity.
  - intros L. rewrite V.
    destruct (Z.leb_spec (T / 1000 + 604800) (now / 1000));
      [reflexivity | lia].
  - rewrite V. replace (T + 7 * 24 * 60 * 60 * 1000)%Z
      with (T + 604800 * 1000)%Z by lia.
    rewrite Z.div_add by lia.
    destruct (Z.leb_spec (T / 1000 + 604800) (T / 1000 + 604800));
      [reflexivity | lia].
Qed.

(** ** What a success tells *)



(** Login answers 200 only when the lookup by the normalized email
    returned a user and the password check on that user returned true;
    in server.js the password is then a string that bcrypt accepts for
    the stored hash, the store was reachable and the world is as it
    was. *)
Theorem login_succeeds_only_with_a_matching_password
        (env : Env) (req : Request) (w : World) :
  (status (fst (Server.login env req w)) = 200 ->
   exists e p u,
     prop (req_body req) "email" = Some (JStr e)
     /\ prop (req_body req) "password" = Some (JStr p)
     /\ connected w = true
     /\ In u (users w) /\ user_email u = normalize e
     /\ checkpw p (user_password u) = true
     /\ Server.login env req w
        = (logged_in_response u
             (token_for u Server.JWT_SECRET (Date_now env)), w))
  /\ (status (fst (Controller.login penv env req w)) = 200 ->
      exists e u w1 w2,
        prop (req_body req) "email" = Some (JStr e)
        /\ User_findOne (Some (JStr (normalize e))) w = (Ok (Some u), w1)
        /\ comparePassword u (prop (req_body req) "password") w1
           = (Ok true, w2)
        /\ snd (Controller.login penv env req w) = w2).
Proof.
  split.
  - destruct (Server.login env req w) as [r w'] eqn:H. simpl. intros Hs.
    destruct (login_succeeded env req w w' r H Hs)
      as (e & u & He & Hc & Hf & Hcmp & -> & ->).
    unfold bcrypt.compare in Hcmp.
    destruct (prop (req_body req) "password") as [[| | |p| |]|] eqn:Hp;
      try discriminate Hcmp.
    injection Hcmp as Hcmp.
    exists e, p, u. repeat split; trivial.
    + apply (find_some _ _ Hf).
    + apply find_some in Hf. destruct Hf as [_ Hf].
      unfold by_email in Hf. rewrite email_setters_normalize in Hf.
      apply String.eqb_eq, Hf.
  - destruct (Controller.login penv env req w) as [r w'] eqn:H. simpl.
    intros Hs.
    cases H; injection H as <- <-; try discriminate Hs.
    all: match goal with
         | Hn : negb ?b = false |- _ =>
             apply negb_false_iff in Hn; subst b
         end.
    all: match goal with
         | He : prop _ "email" = Some (JStr ?e),
           Hf : User_findOne _ _ = (Ok (Some ?u), ?w1),
           Hc : comparePassword _ _ _ = (Ok true, ?w2) |- _ =>
             exists e, u, w1, w2; repeat split; trivial
         end.
Qed.

(** The token of a response is made for the user of that response. *)
Lemma issued_for_response_user
      (handler : Env -> Request -> World -> Response * World)
      (secret : string) (env : Env) (req : Request) (w : World)
      (t : string) :
  (handler = Server.register /\ secret = Server.JWT_SECRET)
  \/ (handler = Server.login /\ secret = Server.JWT_SECRET)
  \/ (handler = Controller.register penv
      /\ secret = Controller.JWT_SECRET penv)
  \/ (handler = Controller.login penv
      /\ secret = Controller.JWT_SECRET penv) ->
  issues handler env req w t ->
  exists id email,
    response_user "id" (fst (handler env req w)) = Some id
    /\ response_user "email" (fst (handler env req w)) = Some email
    /\ t = jwt_encode (claims_at id email (Date_now env)) secret.
Proof.
  unfold issues.
  intros [[-> ->] | [[-> ->] | [[-> ->] | [-> ->]]]];
    match goal with
    | |- context [fst (?h env req w)] =>
        destruct (h env req w) as [r w'] eqn:H
    end;
    intros Ht; cases H; injection H as <- <-; try discriminate Ht.
  all: match goal with
       | Hsign : jwt.sign _ _ _ _ _ = Ok _ |- _ =>
           rewrite sign_nonempty_secret in Hsign
             by first [discriminate | apply controller_secret_nonempty];
           injection Hsign as <-
       end.
  all: injection Ht as <-; do 2 eexists; repeat split; reflexivity.
Qed.

(** The token in a register or login response speaks of the user in that
    response: verified with the secret of the implementation at the clock
    of the request, its subject is [data.user.id] and its email is
    [data.user.email].  The token library is assumed to decode what it
    encodes. *)
Theorem token_claims_are_the_response_user
        (handler : Env -> Request -> World -> Response * World)
        (secret : string) (env : Env) (req : Request) (w : World)
        (t : string) :
  jwt_roundtrip J ->
  (handler = Server.register /\ secret = Server.JWT_SECRET)
  \/ (handler = Server.login /\ secret = Server.JWT_SECRET)
  \/ (handler = Controller.register penv
      /\ secret = Controller.JWT_SECRET penv)
  \/ (handler = Controller.login penv
      /\ secret = Controller.JWT_SECRET penv) ->
  issues handler env req w t ->
  exists c,
    jwt.verify t secret (Date_now env) = Ok c
    /\ response_user "id" (fst (handler env req w)) = Some (claim_id c)
    /\ response_user "email" (fst (handler env req w)) = Some (claim_email c).
Proof.
  intros HJ Hh Ht.
  destruct (issued_for_response_user handler secret env req w t Hh Ht)
    as (id & email & Hi & He & ->).
  exists (claims_at id email (Date_now env)).
  rewrite (verify_encoded _ _ _ HJ). simpl exp.
  destruct (Z.leb_spec (Date_now env / 1000 + jwt.seconds_7d)
              (Date_now env / 1000)) as [L|_].
  - unfold jwt.seconds_7d in L. lia.
  - repeat split; assumption.
Qed.

(** The token of a 201 opens the profile of the new user: after a
    registration, on any later reachable world and until the token
    expires, profile with ['Bearer '] and that token returns the document
    that the registration stored.  The token library is assumed to decode
    what it encodes, into compact tokens. *)
Theorem register_token_opens_profile
        (env1 env3 : Env) (req1 req3 : Request) (w w3 : World) :
  jwt_roundtrip J -> jwt_compact J ->
  status (fst (Server.register env1 req1 w)) = 201 ->
  Reach (snd (Server.register env1 req1 w)) w3 ->
  connected w3 = true ->
  exists u t,
    issues Server.register env1 req1 w t
    /\ In u (users w3)
    /\ response_user "id" (fst (Server.register env1 req1 w))
       = Some (toHexString (user_id u))
    /\ (authorization req3 = Some ("Bearer " ++ t) ->
        (Date_now env3 / 1000 < Date_now env1 / 1000 + 604800)%Z ->
        Server.profile env3 req3 w3
        = (json 200 [("success", JBool true);
                     ("data", Server.toJSON_without_password u)], w3)).
Proof.
  intros HJ HC Hs Hr Hc.
  destruct (Server.register env1 req1 w) as [r1 w1] eqn:H1.
  simpl in Hs, Hr. simpl fst.
  destruct (register_created _ _ _ _ _ H1 Hs)
    as (e & p & He & Hp & Hlen & _ & Hf & Hk & Hmail & -> & ->).
  set (u := registered env1 e p) in *.
  destruct (registered_found env1 e p w Hf Hk) as [_ Hbi]. fold u in Hbi.
  apply (reach_find _ _ _ _ Hr) in Hbi.
  exists u, (token_for u Server.JWT_SECRET (Date_now env1)).
  unfold issues. rewrite H1.
  split; [reflexivity|]. split; [apply (find_some _ _ Hbi)|].
  split; [reflexivity|].
  intros Hh Hexp.
  assert (Hv : jwt.verify (token_for u Server.JWT_SECRET (Date_now env1))
                 Server.JWT_SECRET (Date_now env3)
               = Ok (claims_at (toHexString (user_id u)) (user_email u)
                       (Date_now env1))).
  { unfold token_for. rewrite (verify_encoded _ _ _ HJ). simpl exp.
    destruct (Z.leb_spec (Date_now env1 / 1000 + jwt.seconds_7d)
                (Date_now env3 / 1000)) as [L|_]; [|reflexivity].
    unfold jwt.seconds_7d in L. lia. }
  destruct (verified_is_compact _ _ _ _ HC Hv) as [_ Hne].
  rewrite (profile_verified env3 req3 w3 _
             (token_for u Server.JWT_SECRET (Date_now env1))
             (claims_at (toHexString (user_id u)) (user_email u)
                (Date_now env1)) (user_id u) Hh);
    trivial; [|apply remove_first_prefixed|apply cast_toHexString].
  change (user_id u) with (new_ObjectId env1).
  rewrite Hbi. reflexivity.
Qed.

(** ** Values that validation lets through *)

(** Validation tests truthiness and length, not types.  An email that is
    truthy and not a string (a number, [true], an array, an object)
    passes it, and the call of [toLowerCase] on it throws: the answer is
    500 with the TypeError's message under [error], from register and
    login of server.js and from login of the controller, and the world is
    as it was. *)
Theorem non_string_email_is_answered_500
        (env : Env) (req : Request) (w : World) (v : Json) :
  prop (req_body req) "email" = Some v ->
  (forall s, v <> JStr s) ->
  Js.truthy (Some v) = true ->
  Js.truthy (prop (req_body req) "password") = true ->
  (Server.password_too_short (prop (req_body req) "password") = Ok false ->
   Server.register env req w
   = (server_error "Server error during registration" not_a_function, w))
  /\ Server.login env req w
     = (server_error "Server error during login" not_a_function, w)
  /\ Controller.login penv env req w
     = (server_error "Error in login" not_a_function, w).
Proof.
  intros He Hns Htv Htp. repeat split.
  - intros Hshort.
    destruct (Server.register env req w) as [r w'] eqn:H.
    unfold Server.password_too_short in Hshort.
    expose H. rewrite He, Htv, Htp, Hshort in H. reduce H.
    destruct v; try (exfalso; eapply Hns; reflexivity);
      symmetry; exact H.
  - destruct (Server.login env req w) as [r w'] eqn:H.
    expose H. rewrite He, Htv, Htp in H. reduce H.
    destruct v; try (exfalso; eapply Hns; reflexivity);
      symmetry; exact H.
  - destruct (Controller.login penv env req w) as [r w'] eqn:H.
    expose H. rewrite He, Htv, Htp in H. reduce H.
    destruct v; try (exfalso; eapply Hns; reflexivity);
      symmetry; exact H.
Qed.

(** A password that is truthy and not a string passes validation when it
    has no length below 6 (a number has none), and bcrypt rejects it with
    ['Illegal arguments: '], the type of the password and the type of its
    second argument: on a reachable store, register with an email not yet
    stored answers 500 (['Illegal arguments: number, number'] for a
    number) and stores nothing, and login answers 500 when the email is
    stored (['Illegal arguments: number, string']) and the usual 401
    when it is not, the password being looked at only after the user is
    found. *)
Theorem non_string_password_is_answered_500
        (env : Env) (req : Request) (w : World) (e : string) (v : Json) :
  prop (req_body req) "email" = Some (JStr e) -> e <> EmptyString ->
  prop (req_body req) "password" = Some v ->
  (forall s, v <> JStr s) ->
  Js.truthy (Some v) = true ->
  connected w = true ->
  (Js.length_lt v 6 = Some false ->
   find (by_email e) (users w) = None ->
   Server.register env req w
   = (server_error "Server error during registration"
        (bcrypt.illegal_arguments (Some v) "number"), w))
  /\ (forall u, find (by_email e) (users w) = Some u ->
                Server.login env req w
                = (server_error "Server error during login"
                     (bcrypt.illegal_arguments (Some v) "string"), w))
  /\ (find (by_email e) (users w) = None ->
      Server.login env req w = (invalid_credentials, w)).
Proof.
  intros He Hne Hp Hns Htv Hc.
  assert (Hte : Js.truthy (Some (JStr e)) = true)
    by (destruct e; simpl; congruence).
  unfold by_email, normalize. repeat split.
  - intros Hlen Hf.
    destruct (Server.register env req w) as [r w'] eqn:H.
    expose H. rewrite He, Hp, Hte, Htv, Hlen in H. reduce H.
    rewrite Hc, Hf in H. reduce H.
    destruct v; try (exfalso; eapply Hns; reflexivity);
      symmetry; exact H.
  - intros u Hf.
    destruct (Server.login env req w) as [r w'] eqn:H.
    expose H. rewrite He, Hp, Hte, Htv in H. reduce H.
    rewrite Hc, Hf in H. reduce H.
    destruct v; try (exfalso; eapply Hns; reflexivity);
      symmetry; exact H.
  - intros Hf.
    destruct (Server.login env req w) as [r w'] eqn:H.
    expose H. rewrite He, Hp, Hte, Htv in H. reduce H.
    rewrite Hc, Hf in H. symmetry. exact H.
Qed.

(** ** Authorization headers *)

(** Extraction removes the scheme as spelled, ['Bearer '] with its
    capital and one space, and only once.  A header from which it leaves
    a text that is not empty and not compact (a space or any character
    outside base64url and the dot is left, as with ['bearer t'], ['Basic
    t'] or ['Bearer Bearer t']) is answered 401 ['Invalid or expired
    token'] by both implementations, and the store is not asked.  Tokens
    that verify are assumed to be compact. *)
Theorem malformed_authorization_is_answered_401
        (env : Env) (req : Request) (w : World) (h : string) :
  jwt_compact J ->
  authorization req = Some h ->
  JsString.remove_first "Bearer " h <> EmptyString ->
  compact (JsString.remove_first "Bearer " h) = false ->
  Server.profile env req w = (invalid_or_expired, w)
  /\ Controller.getProfile penv env req w = (invalid_or_expired, w).
Proof.
  intros HC Hh Hne Hnc.
  assert (V : forall k, exists e,
             jwt.verify (JsString.remove_first "Bearer " h) k (Date_now env)
             = Throw e).
  { intros k. unfold jwt.verify.
    destruct (jwt_decode (JsString.remove_first "Bearer " h) k) as [c|] eqn:D.
    - destruct (HC _ _ _ D) as [Hc _]. congruence.
    - eexists. reflexivity. }
  split.
  - destruct (V Server.JWT_SECRET) as [e Hv].
    apply (server_profile_rejected env req w h e); assumption.
  - destruct (V (Controller.JWT_SECRET penv)) as [e Hv].
    apply (controller_profile_rejected penv env req w h e); assumption.
Qed.

(** Once a register or login of the controller has issued a token, and
    until the token expires, getProfile of the controller with ['Bearer ']
    and that token passes verification and answers as the lookup of the
    id shown in the issuing response decides: 200 with the user, 404 when
    there is none, 401 when the lookup throws.  The token library is
    assumed to decode what it encodes, into compact tokens. *)
Theorem controller_token_opens_controller_profile
        (handler : Env -> Request -> World -> Response * World)
        (env env' : Env) (req req' : Request) (w w' : World) (t : string) :
  jwt_roundtrip J -> jwt_compact J ->
  handler = Controller.register penv \/ handler = Controller.login penv ->
  issues handler env req w t ->
  authorization req' = Some ("Bearer " ++ t) ->
  (Date_now env' / 1000 < Date_now env / 1000 + 604800)%Z ->
  exists id,
    response_user "id" (fst (handler env req w)) = Some id
    /\ Controller.getProfile penv env' req' w' = controller_lookup id w'.
Proof.
  intros HJ HC Hh Ht Ha Hexp.
  assert (Hh' : (handler = Server.register /\ Controller.JWT_SECRET penv
                                              = Server.JWT_SECRET)
                \/ (handler = Server.login /\ Controller.JWT_SECRET penv
                                             = Server.JWT_SECRET)
                \/ (handler = Controller.register penv
                    /\ Controller.JWT_SECRET penv = Controller.JWT_SECRET penv)
                \/ (handler = Controller.login penv
                    /\ Controller.JWT_SECRET penv
                       = Controller.JWT_SECRET penv)).
  { destruct Hh as [-> | ->]; [right; right; left | right; right; right];
      split; reflexivity. }
  destruct (issued_for_response_user handler _ env req w t Hh' Ht)
    as (id & email & Hi & _ & ->).
  exists id. split; [exact Hi|].
  assert (Hv : jwt.verify
                 (jwt_encode (claims_at id email (Date_now env))
                    (Controller.JWT_SECRET penv))
                 (Controller.JWT_SECRET penv) (Date_now env')
               = Ok (claims_at id email (Date_now env))).
  { rewrite (verify_encoded _ _ _ HJ). simpl exp.
    destruct (Z.leb_spec (Date_now env / 1000 + jwt.seconds_7d)
                (Date_now env' / 1000)) as [L|_]; [|reflexivity].
    unfold jwt.seconds_7d in L. lia. }
  destruct (verified_is_compact _ _ _ _ HC Hv) as [_ Hne].
  apply is_empty_false in Hne.
  destruct (Controller.getProfile penv env' req' w') as [r w2] eqn:H.
  expose H. rewrite Ha, remove_first_prefixed, Hne, Hv in H.
  unfold controller_lookup. simpl claim_id in H.
  destruct (User_findById id w') as [[[u|]|ex] w3]; symmetry; exact H.
Qed.

(** ** What profile shows *)

Lemma find_by_id_redacted (id : ObjectId) (l : list UserDoc) :
  find (by_id id) (map redact_password l)
  = option_map redact_password (find (by_id id) l).
Proof.
  induction l as [|u l IH]; simpl; [reflexivity|].
  unfold by_id at 1 3. simpl.
  destruct (ObjectId_eqb (user_id u) id); [reflexivity | exact IH].
Qed.

Lemma profile_store_unreachable (env : Env) (req : Request) (w : World)
      (h : string) (c : Claims) :
  authorization req = Some h ->
  JsString.remove_first "Bearer " h <> EmptyString ->
  jwt.verify (JsString.remove_first "Bearer " h) Server.JWT_SECRET
    (Date_now env) = Ok c ->
  connected w = false ->
  Server.profile env req w = (invalid_or_expired, w).
Proof.
  intros Hh Hne Hv Hc.
  destruct (Server.profile env req w) as [r w'] eqn:H.
  expose H. apply is_empty_false in Hne. rewrite Hh, Hne, Hv in H.
  destruct (cast_ObjectId (claim_id c)); [rewrite Hc in H|];
    symmetry; exact H.
Qed.

(** The answer of profile in server.js does not depend on the stored
    password hashes: it is the same on the world where every hash has
    been blanked.  What [select('-password')] leaves out is out of every
    body that profile sends. *)
Theorem profile_does_not_show_password_hashes
        (env : Env) (req : Request) (w : World) :
  fst (Server.profile env req w) = fst (Server.profile env req (redact w)).
Proof.
  destruct (authorization req) as [h|] eqn:Hh.
  2: { unfold Server.profile, Server.profile_body, try_catch.
       rewrite Hh. reflexivity. }
  destruct (JsString.is_empty (JsString.remove_first "Bearer " h)) eqn:He.
  { unfold Server.profile, Server.profile_body, try_catch,
      Server.extract_token.
    rewrite Hh. simpl. rewrite He. reflexivity. }
  apply is_empty_false in He.
  destruct (jwt.verify (JsString.remove_first "Bearer " h) Server.JWT_SECRET
              (Date_now env)) as [c|e] eqn:Hv.
  2: { rewrite (server_profile_rejected env req w h e Hh He Hv).
       rewrite (server_profile_rejected env req (redact w) h e Hh He Hv).
       reflexivity. }
  destruct (cast_ObjectId (claim_id c)) as [id|] eqn:Hid.
  2: { rewrite (profile_malformed_id env req w h _ c Hh eq_refl He Hv Hid).
       rewrite (profile_malformed_id env req (redact w) h _ c Hh eq_refl He
                  Hv Hid).
       reflexivity. }
  destruct (connected w) eqn:Hc.
  - rewrite (profile_verified env req w h _ c id Hh eq_refl He Hv Hid Hc).
    rewrite (profile_verified env req (redact w) h _ c id Hh eq_refl He Hv
               Hid Hc).
    simpl. rewrite find_by_id_redacted.
    destruct (find (by_id id) (users w)); reflexivity.
  - rewrite (profile_store_unreachable env req w h c Hh He Hv Hc).
    rewrite (profile_store_unreachable env req (redact w) h c Hh He Hv Hc).
    reflexivity.
Qed.

(** Profile never answers 404 to a token of this store: for a token that
    register or login of server.js issued, on any world reached later,
    the user of the token is still stored, so the answer is 200, or 401
    when the token has expired or the store is unreachable.  The token
    library is assumed to decode what it encodes. *)
Theorem issued_token_is_never_answered_404
        (env env' : Env) (req req' : Request) (w w' : World) (t : string) :
  jwt_roundtrip J ->
  (issues Server.register env req w t
   /\ Reach (snd (Server.register env req w)) w')
  \/ (issues Server.login env req w t
      /\ Reach (snd (Server.login env req w)) w') ->
  authorization req' = Some ("Bearer " ++ t) ->
  In (status (fst (Server.profile env' req' w'))) [200; 401].
Proof.
  intros HJ Hi Hh.
  assert (S : exists u, In u (users w')
                        /\ t = token_for u Server.JWT_SECRET (Date_now env)).
  { destruct Hi as [[Ht Hr] | [Ht Hr]]; unfold issues in Ht.
    - destruct (Server.register env req w) as [r w1] eqn:H. simpl in Ht, Hr.
      assert (Hs : status r = 201).
      { cases H; injection H as <- <-; try discriminate Ht; reflexivity. }
      destruct (register_created env req w w1 r H Hs)
        as (e & p & _ & _ & _ & _ & _ & _ & _ & E1 & E2).
      subst w1 r. simpl in Ht. injection Ht as <-.
      exists (registered env e p). split; [|reflexivity].
      destruct (reach_grows _ _ Hr) as [l ->]. simpl.
      apply in_or_app. left. apply in_or_app. right. left. reflexivity.
    - destruct (Server.login env req w) as [r w1] eqn:H. simpl in Ht, Hr.
      assert (Hs : status r = 200).
      { cases H; injection H as <- <-; try discriminate Ht; reflexivity. }
      destruct (login_succeeded env req w w1 r H Hs)
        as (e & u & _ & _ & Hf & _ & -> & ->).
      simpl in Ht. injection Ht as <-.
      exists u. split; [|reflexivity].
      destruct (reach_grows _ _ Hr) as [l ->].
      apply in_or_app. left. apply (find_some _ _ Hf). }
  destruct S as (u & Hu & ->).
  destruct (Server.profile env' req' w') as [r w2] eqn:H.
  expose H. rewrite Hh, remove_first_prefixed in H.
  unfold token_for in H. rewrite (verify_encoded _ _ _ HJ) in H.
  repeat split_inner H; injection H as <- <-; simpl; auto.
  exfalso.
  match goal with
  | Hcast : cast_ObjectId _ = Some _,
    Hf : find _ (users w') = None |- _ =>
      unfold claims_at in Hcast; cbn [claim_id] in Hcast;
      rewrite cast_toHexString in Hcast; injection Hcast as <-;
      apply (find_none _ _ Hf) in Hu; simpl in Hu;
      rewrite ObjectId_eqb_refl in Hu; discriminate Hu
  end.
Qed.

(** ** Register: the controller's lookup, and blank emails *)

(** Register of the controller answers 201 only after [User.findOne],
    asked with the email as it was sent, returned no user, and creation
    with the normalized email and the password as it was sent succeeded;
    the response then shows the created user, and the world is the one
    that creation left.  Once creation has succeeded nothing can fail:
    the answer is 201. *)
Theorem controller_register_looks_up_the_email_as_sent
        (env : Env) (req : Request) (w : World) :
  (status (fst (Controller.register penv env req w)) = 201 ->
   exists e u w1 w2,
     prop (req_body req) "email" = Some (JStr e)
     /\ User_findOne (Some (JStr e)) w = (Ok None, w1)
     /\ User_create env (normalize e) (prop (req_body req) "password") w1
        = (Ok u, w2)
     /\ snd (Controller.register penv env req w) = w2
     /\ response_user "id" (fst (Controller.register penv env req w))
        = Some (toHexString (user_id u))
     /\ response_user "email" (fst (Controller.register penv env req w))
        = Some (user_email u))
  /\ (forall e u w1 w2,
        prop (req_body req) "email" = Some (JStr e) ->
        Js.truthy (Some (JStr e)) = true ->
        Js.truthy (prop (req_body req) "password") = true ->
        Controller.password_too_short (prop (req_body req) "password")
        = Ok false ->
        User_findOne (Some (JStr e)) w = (Ok None, w1) ->
        User_create env (normalize e) (prop (req_body req) "password") w1
        = (Ok u, w2) ->
        status (fst (Controller.register penv env req w)) = 201
        /\ snd (Controller.register penv env req w) = w2).
Proof.
  split.
  - destruct (Controller.register penv env req w) as [r w'] eqn:H. simpl.
    intros Hs.
    cases H; injection H as <- <-; try discriminate Hs.
    all: match goal with
         | He : prop _ "email" = Some (JStr ?e),
           Hf : User_findOne _ _ = (Ok None, ?w1),
           Hc : User_create _ _ _ _ = (Ok ?u, ?w2) |- _ =>
             exists e, u, w1, w2; repeat split; trivial
         end.
  - intros e u w1 w2 He Hte Htp Hshort Hf Hc.
    destruct (Controller.register penv env req w) as [r w'] eqn:H.
    unfold Controller.password_too_short in Hshort.
    expose H. rewrite He, Hte, Htp, Hshort in H. reduce H.
    rewrite Hf in H. reduce H. unfold normalize in Hc. rewrite Hc in H.
    rewrite sign_nonempty_secret in H by apply controller_secret_nonempty.
    injection H as <- <-. split; reflexivity.
Qed.

(** An email made of whitespace only is truthy, so it passes validation,
    and normalizes to the empty string, which the [required] email path
    of the schema refuses when the document is saved: on a reachable
    store that holds no document with an empty email, register of
    server.js with such an email and a valid password answers 500, not
    400, with Mongoose's ['User validation failed: email: Path `email` is
    required.'] under [error], and stores nothing; login with it answers
    the usual 401.  The hash of a password is assumed not to be empty. *)
Theorem blank_email_is_answered_500
        (env : Env) (req : Request) (w : World) (e p : string) :
  prop (req_body req) "email" = Some (JStr e) ->
  e <> EmptyString -> normalize e = EmptyString ->
  prop (req_body req) "password" = Some (JStr p) ->
  6 <= String.length p ->
  hashpw p 10 (genSalt env) <> EmptyString ->
  connected w = true ->
  find (fun u => String.eqb (user_email u) EmptyString) (users w) = None ->
  Server.register env req w
  = (server_error "Server error during registration"
       {| name := ValidationError;
          message :=
            "User validation failed: email: Path `email` is required." |}, w)
  /\ Server.login env req w = (invalid_credentials, w).
Proof.
  intros He Hne Hn Hp Hlen Hh Hc Hf.
  assert (Hte : Js.truthy (Some (JStr e)) = true)
    by (destruct e; simpl; congruence).
  assert (Htp : Js.truthy (Some (JStr p)) = true)
    by (destruct p; simpl in *; [lia | reflexivity]).
  assert (Hl : Js.length_lt (JStr p) 6 = Some false)
    by (simpl; f_equal; apply Nat.ltb_ge, Hlen).
  apply is_empty_false in Hh.
  unfold normalize in Hn. split.
  - destruct (Server.register env req w) as [r w'] eqn:H.
    expose H. rewrite He, Hp, Hte, Htp, Hl in H. reduce H.
    rewrite Hn, Hc in H.
    change (Server.email_setters EmptyString) with EmptyString in H.
    rewrite Hf in H.
    cbv beta iota zeta delta [Server.validation_failed Server.required_clause
                              Server.required Server.new_User
                              user_email user_password] in H.
    change (Server.email_setters EmptyString) with EmptyString in H.
    rewrite Hh in H. simpl in H. symmetry. exact H.
  - destruct (Server.login env req w) as [r w'] eqn:H.
    expose H. rewrite He, Hp, Hte, Htp in H. reduce H.
    rewrite Hn, Hc in H.
    change (Server.email_setters EmptyString) with EmptyString in H.
    rewrite Hf in H. symmetry. exact H.
Qed.

End Properties.

(** * The further properties on concrete requests *)

Module PropertyExamples.
Import Sample SampleFacts Scenario.

(** A login with an empty email. *)
Lemma falsy_credentials_are_rejected_witness :
  let req := credentials "" "secret1" in
  Js.truthy (prop (req_body req) "email") = false
  /\ Server.login env2 req w1
     = (credentials_required "Email and password are required", w1)
  /\ Controller.login unset env2 req w1
     = (credentials_required "Please provide email and password", w1).
Proof.
  split; [reflexivity|].
  destruct (falsy_credentials_are_rejected unset env2
              (credentials "" "secret1") w1 (or_introl eq_refl))
    as (_ & L & _ & C).
  split; assumption.
Defined.

(** The empty store, and the store after [alice] has registered. *)
Lemma store_stays_well_formed_witness :
  store_ok w0 /\ Reach w0 w1 /\ store_ok w1.
Proof.
  assert (H0 : store_ok w0).
  { repeat split; constructor. }
  assert (Hr : Reach w0 w1).
  { exact (reach_request w0 w0 Server.Register env1 alice (reach_refl w0)). }
  split; [exact H0|]. split; [exact Hr|].
  exact (store_stays_well_formed w0 w1 H0 Hr).
Defined.

(** [alice] is still stored after a second user has registered. *)
Lemma documents_are_never_removed_witness :
  let w2 := snd (Server.register env2
                   (credentials "bob@test.com" "hunter22") w1) in
  List.length (users w2) = 2
  /\ (forall u, In u (users w1) -> In u (users w2))
  /\ (forall f u, find f (users w1) = Some u -> find f (users w2) = Some u)
  /\ List.length (users w1) <= List.length (users w2).
Proof.
  split; [reflexivity|].
  apply (documents_are_never_removed w1).
  exact (reach_request w1 w1 Server.Register env2
           (credentials "bob@test.com" "hunter22") (reach_refl w1)).
Defined.

(** [alice] logs in under two spellings of her email. *)
Lemma email_spelling_does_not_matter_witness :
  let again := credentials " a@TEST.com" "secret1" in
  normalize "A@Test.com " = normalize " a@TEST.com"
  /\ Server.register env2 alice w1 = Server.register env2 again w1
  /\ Server.login env2 alice w1 = Server.login env2 again w1
  /\ Controller.login unset env2 alice w1
     = Controller.login unset env2 again w1.
Proof.
  split; [reflexivity|].
  apply (email_spelling_does_not_matter unset env2 alice
           (credentials " a@TEST.com" "secret1") w1
           "A@Test.com " " a@TEST.com");
    try reflexivity; discriminate.
Defined.

(** The token of [alice], one second before 7 days and at 7 days. *)
Lemma token_window_ends_at_seven_days_witness :
  server_issues env2 alice w1 alice_token
  /\ (exists c, jwt.verify alice_token Server.JWT_SECRET
                  (9000 + 7 * 24 * 60 * 60 * 1000 - 1000) = Ok c)
  /\ jwt.verify alice_token Server.JWT_SECRET (9000 + 7 * 24 * 60 * 60 * 1000)
     = Throw expired.
Proof.
  assert (H : server_issues env2 alice w1 alice_token)
    by (right; reflexivity).
  split; [exact H|].
  destruct (token_window_ends_at_seven_days unset env2 alice w1 alice_token
              Server.JWT_SECRET (9000 + 7 * 24 * 60 * 60 * 1000 - 1000)
              jwt_roundtrip_law (or_introl (conj eq_refl H)))
    as (A & _ & E).
  split; [apply A; reflexivity | exact E].
Defined.


(** The login of [alice]. *)
Lemma login_succeeds_only_with_a_matching_password_witness :
  exists e p u,
    prop (req_body alice) "email" = Some (JStr e)
    /\ prop (req_body alice) "password" = Some (JStr p)
    /\ connected w1 = true
    /\ In u (users w1) /\ user_email u = normalize e
    /\ checkpw p (user_password u) = true
    /\ Server.login env2 alice w1
       = (logged_in_response u
            (token_for u Server.JWT_SECRET (Date_now env2)), w1).
Proof.
  apply (proj1 (login_succeeds_only_with_a_matching_password unset env2
                  alice w1)).
  reflexivity.
Defined.

(** The token of the login of [alice] and the user of that response. *)
Lemma token_claims_are_the_response_user_witness :
  exists c,
    jwt.verify alice_token Server.JWT_SECRET (Date_now env2) = Ok c
    /\ response_user "id" (fst (Server.login env2 alice w1))
       = Some (claim_id c)
    /\ response_user "email" (fst (Server.login env2 alice w1))
       = Some (claim_email c).
Proof.
  apply (token_claims_are_the_response_user unset Server.login
           Server.JWT_SECRET env2 alice w1 alice_token jwt_roundtrip_law).
  - right. left. split; reflexivity.
  - reflexivity.
Defined.

(** [alice] registers and opens her profile with the token of the 201. *)
Lemma register_token_opens_profile_witness :
  exists u t,
    issues Server.register env1 alice w0 t
    /\ In u (users w1)
    /\ response_user "id" (fst (Server.register env1 alice w0))
       = Some (toHexString (user_id u))
    /\ (authorization (bearer (Some ("Bearer " ++ t)))
        = Some ("Bearer " ++ t) ->
        (Date_now env2 / 1000 < Date_now env1 / 1000 + 604800)%Z ->
        Server.profile env2 (bearer (Some ("Bearer " ++ t))) w1
        = (json 200 [("success", JBool true);
                     ("data", Server.toJSON_without_password u)], w1)).
Proof.
  assert (Hs : status (fst (Server.register env1 alice w0)) = 201)
    by reflexivity.
  assert (Hc : connected w1 = true) by reflexivity.
  destruct (register_token_opens_profile env1 env2 alice
              (bearer (Some ("Bearer " ++
                               token_for alice_doc Server.JWT_SECRET
                                 (Date_now env1))))
              w0 w1 jwt_roundtrip_law jwt_compact_law Hs
              (reach_refl _) Hc)
    as (u & t & Hi & Hu & Hid & Hp).
  exists u, t. repeat split; try assumption.
  intros _ Hexp.
  assert (Et : t = token_for alice_doc Server.JWT_SECRET (Date_now env1)).
  { unfold issues in Hi.
    change (Some (token_for alice_doc Server.JWT_SECRET (Date_now env1))
            = Some t) in Hi.
    injection Hi as <-. reflexivity. }
  subst t. apply Hp; [reflexivity | exact Hexp].
Defined.

(** A login whose email is the number 5. *)
Lemma non_string_email_is_answered_500_witness :
  let req := {| authorization := None;
                req_body := [("email", JNum 5%float);
                             ("password", JStr "secret1")] |} in
  Server.login env2 req w1
  = (server_error "Server error during login" not_a_function, w1)
  /\ Server.register env2 req w1
     = (server_error "Server error during registration" not_a_function, w1)
  /\ Controller.login unset env2 req w1
     = (server_error "Error in login" not_a_function, w1).
Proof.
  assert (Hns : forall s, JNum 5%float <> JStr s) by discriminate.
  destruct (non_string_email_is_answered_500 unset env2
              {| authorization := None;
                 req_body := [("email", JNum 5%float);
                              ("password", JStr "secret1")] |}
              w1 (JNum 5%float) eq_refl Hns eq_refl eq_refl)
    as (Rg & L & C).
  split; [exact L | split; [apply Rg; reflexivity | exact C]].
Defined.

(** A registration and a login whose password is the number 123456. *)
Lemma non_string_password_is_answered_500_witness :
  let fresh := {| authorization := None;
                  req_body := [("email", JStr "bob@test.com");
                               ("password", JNum 123456%float)] |} in
  let known := {| authorization := None;
                  req_body := [("email", JStr "a@test.com");
                               ("password", JNum 123456%float)] |} in
  Server.register env2 fresh w1
  = (json 500 [("success", JBool false);
               ("message", JStr "Server error during registration");
               ("error", JStr "Illegal arguments: number, number")], w1)
  /\ Server.login env2 known w1
     = (json 500 [("success", JBool false);
                  ("message", JStr "Server error during login");
                  ("error", JStr "Illegal arguments: number, string")], w1)
  /\ Server.login env2 fresh w1 = (invalid_credentials, w1).
Proof.
  assert (Hns : forall s, JNum 123456%float <> JStr s) by discriminate.
  assert (Hb : "bob@test.com" <> EmptyString) by discriminate.
  assert (Ha : "a@test.com" <> EmptyString) by discriminate.
  assert (Hc : connected w1 = true) by reflexivity.
  destruct (non_string_password_is_answered_500 env2
              {| authorization := None;
                 req_body := [("email", JStr "bob@test.com");
                              ("password", JNum 123456%float)] |}
              w1 "bob@test.com" (JNum 123456%float) eq_refl Hb eq_refl
              Hns eq_refl Hc)
    as (Rg & _ & Lu).
  destruct (non_string_password_is_answered_500 env2
              {| authorization := None;
                 req_body := [("email", JStr "a@test.com");
                              ("password", JNum 123456%float)] |}
              w1 "a@test.com" (JNum 123456%float) eq_refl Ha eq_refl
              Hns eq_refl Hc)
    as (_ & Lk & _).
  split; [apply Rg; reflexivity|].
  split; [apply (Lk alice_doc); reflexivity | apply Lu; reflexivity].
Defined.

(** The token of [alice] behind a lower-case scheme. *)
Lemma malformed_authorization_is_answered_401_witness :
  let req := bearer (Some ("bearer " ++ alice_token)) in
  JsString.remove_first "Bearer " ("bearer " ++ alice_token)
  = "bearer " ++ alice_token
  /\ Server.profile env2 req w1 = (invalid_or_expired, w1)
  /\ Controller.getProfile unset env2 req w1 = (invalid_or_expired, w1).
Proof.
  split; [reflexivity|].
  apply (malformed_authorization_is_answered_401 unset env2
           (bearer (Some ("bearer " ++ alice_token))) w1
           ("bearer " ++ alice_token) jwt_compact_law eq_refl);
    [discriminate | reflexivity].
Defined.

(** [alice] logs in through the controller and opens her profile. *)
Lemma controller_token_opens_controller_profile_witness :
  let t := token_for alice_doc (Controller.JWT_SECRET unset) (Date_now env2) in
  issues (Controller.login unset) env2 alice w1 t
  /\ exists id,
       response_user "id" (fst (Controller.login unset env2 alice w1))
       = Some id
       /\ Controller.getProfile unset env2 (bearer (Some ("Bearer " ++ t))) w1
          = controller_lookup id w1.
Proof.
  assert (Hi : issues (Controller.login unset) env2 alice w1
                 (token_for alice_doc (Controller.JWT_SECRET unset)
                    (Date_now env2))) by reflexivity.
  split; [exact Hi|].
  apply (controller_token_opens_controller_profile unset
           (Controller.login unset) env2 env2 alice
           (bearer (Some ("Bearer " ++
                            token_for alice_doc (Controller.JWT_SECRET unset)
                              (Date_now env2))))
           w1 w1
           (token_for alice_doc (Controller.JWT_SECRET unset) (Date_now env2))
           jwt_roundtrip_law jwt_compact_law (or_intror eq_refl)
           Hi eq_refl).
  reflexivity.
Defined.

(** The token of [alice] after a second user has registered. *)
Lemma issued_token_is_never_answered_404_witness :
  let w2 := snd (Server.register env2
                   (credentials "bob@test.com" "hunter22") w1) in
  In (status (fst (Server.profile env2
                     (bearer (Some ("Bearer " ++ alice_token))) w2)))
     [200; 401].
Proof.
  apply (issued_token_is_never_answered_404 env2 env2 alice
           (bearer (Some ("Bearer " ++ alice_token))) w1
           (snd (Server.register env2
                   (credentials "bob@test.com" "hunter22") w1))
           alice_token jwt_roundtrip_law);
    [|reflexivity].
  right. split; [reflexivity|].
  exact (reach_request w1 w1 Server.Register env2
           (credentials "bob@test.com" "hunter22") (reach_refl w1)).
Defined.

(** [alice] registers through the controller. *)
Lemma controller_register_looks_up_the_email_as_sent_witness :
  exists e u w1' w2',
    prop (req_body alice) "email" = Some (JStr e)
    /\ User_findOne (Some (JStr e)) w0 = (Ok None, w1')
    /\ User_create env1 (normalize e) (prop (req_body alice) "password") w1'
       = (Ok u, w2')
    /\ snd (Controller.register unset env1 alice w0) = w2'
    /\ response_user "id" (fst (Controller.register unset env1 alice w0))
       = Some (toHexString (user_id u))
    /\ response_user "email" (fst (Controller.register unset env1 alice w0))
       = Some (user_email u).
Proof.
  apply (proj1 (controller_register_looks_up_the_email_as_sent unset env1
                  alice w0)).
  reflexivity.
Defined.

(** A registration whose email is three spaces. *)
Lemma blank_email_is_answered_500_witness :
  let req := credentials "   " "secret1" in
  normalize "   " = EmptyString
  /\ Server.register env2 req w1
     = (json 500
          [("success", JBool false);
           ("message", JStr "Server error during registration");
           ("error",
             JStr "User validation failed: email: Path `email` is required.")],
        w1)
  /\ Server.login env2 req w1 = (invalid_credentials, w1).
Proof.
  split; [reflexivity|].
  apply (blank_email_is_answered_500 env2 (credentials "   " "secret1") w1
           "   " "secret1");
    try reflexivity; try discriminate.
  simpl. lia.
Defined.

End PropertyExamples.
